(** * Credential and session lifecycle of the auth service

    A shallow embedding of

      - [app/core/security.py]   (access tokens, blacklist, refresh tokens),
      - [app/core/redis.py]      (password escrow),
      - [app/api/v1/auth.py], [app/api/deps.py] (the endpoints),
      - [app/crud/auth_user.py]  ([create_with_user_id] and the lookups),
      - [app/messaging/auth_handler.py] (the creation-completed consumer),
      - the user service's [app/crud/user.py], [app/messaging/rabbitmq.py]
        and [app/messaging/user_handler.py],

    followed by the properties of the specification that concern them.

    Conventions.
      - The clock is a count of microseconds since the epoch (a [Z]); one call
        of a coroutine reads the clock once, so every function takes the
        instant [now] at which it runs.  A float timestamp of Python is this
        count divided by [10^6]; [int(x)] truncates towards zero ([Z.quot]).
      - A coroutine that reads or writes Redis or the database is a function
        [World -> Result A * World]: it either returns or raises, and the
        effects made before a raise stay.
      - Redis and the database answer every command: connection failures are
        not part of the model.  Redis refuses a [SETEX] whose time to live is
        not positive and forgets an entry once its time to live has elapsed.
        The message broker of the user service can be out of reach.
      - Random draws ([uuid.uuid4], [secrets.token_urlsafe]) are arguments.
      - [python-jose], [json], [bcrypt], [uuid.UUID], the e-mail validator
        and the text of the database driver's errors are collaborators
        outside the repository: they are variables of the sections below.
      - A [str] is held as the bytes of its UTF-8 encoding, a value read from
        Redis as the bytes stored.
      - Claims and message fields are strings, integers, booleans or [None];
        lists, floats and deeper nesting do not occur. *)

From Stdlib Require Import ZArith Lia Ascii.
From stdpp Require Import base option strings gmap list pretty.

Local Open Scope string_scope.
Local Open Scope list_scope.
Local Open Scope Z_scope.

(** ** Python values *)

(** The values that travel in claims, stored records and broker messages. *)
Inductive Scalar : Type :=
  | PNone
  | PBool (b : bool)
  | PInt (n : Z)
  | PStr (s : string).

Global Instance Scalar_eq_dec : EqDecision Scalar.
Proof. solve_decision. Defined.

(** [Dict[str, Any]], one level deep. *)
Abbreviation Dict := (gmap string Scalar).

(** A decoded JSON document or a message field: a scalar or an object. *)
Inductive Value : Type :=
  | Atom (a : Scalar)
  | Obj (d : Dict).

(** Python truthiness, as tested by [if not x]. *)
Definition truthy (v : Scalar) : bool :=
  match v with
  | PNone => false
  | PBool b => b
  | PInt n => negb (n =? 0)
  | PStr s => negb (bool_decide (s = ""))
  end.

Definition truthy_value (v : Value) : bool :=
  match v with
  | Atom a => truthy a
  | Obj d => negb (bool_decide (d = ∅))
  end.

(** [d.get(k)]: [None] when the key is missing. *)
Definition py_get (d : Dict) (k : string) : Scalar := default PNone (d !! k).

(** [str(x)], as an f-string formats a scalar. *)
Definition py_str (v : Scalar) : string :=
  match v with
  | PNone => "None"
  | PBool true => "True"
  | PBool false => "False"
  | PInt n => pretty n
  | PStr s => s
  end.

(** The number a scalar stands for in arithmetic and comparisons
    ([bool] is a subclass of [int]); [None] where Python raises [TypeError]. *)
Definition py_number (v : Scalar) : option Z :=
  match v with
  | PInt n => Some n
  | PBool b => Some (if b then 1 else 0)
  | PNone | PStr _ => None
  end.

(** [needle in haystack] on two strings. *)
Fixpoint py_in (needle haystack : string) : bool :=
  String.prefix needle haystack
  || match haystack with
     | EmptyString => false
     | String _ rest => py_in needle rest
     end.

(** Whether a byte continues a character of UTF-8 (it reads [10xxxxxx]). *)
Definition continuation_byte (c : ascii) : bool :=
  match c with
  | Ascii _ _ _ _ _ _ b6 b7 => b7 && negb b6
  end.

(** [len(s)] of a [str]: the number of its characters, that is of the bytes
    of its encoding that start one. *)
Fixpoint str_len (s : string) : Z :=
  match s with
  | EmptyString => 0
  | String c rest => (if continuation_byte c then 0 else 1) + str_len rest
  end.

(** ** Time *)

Definition second : Z := 1000000.

(** [int(t)] of a float timestamp [t] given in microseconds. *)
Definition py_int (us : Z) : Z := us ÷ second.

(** [timegm(d.utctimetuple())]: whole seconds, the fraction dropped. *)
Definition timegm (us : Z) : Z := us `div` second.

(** ** Exceptions and results *)

Inductive IntegrityConstraint : Type :=
  | UqUsername | UqEmail | UqUserId | PkId.

Inductive Exn : Type :=
  | JWTError
  | TypeError
  | AttributeError
  | ValueError
  | JSONDecodeError        (* json: the text is not a JSON document *)
  | UnicodeDecodeError     (* json: the bytes are not text *)
  | AMQPError              (* aio_pika: the broker cannot be reached *)
  | ResponseError          (* redis: the server refused the command *)
  | DataError              (* redis: a value that cannot be sent *)
  | ValidationError        (* pydantic *)
  | IntegrityError (c : IntegrityConstraint)
  | DuplicateUsernameError
  | DuplicateEmailError
  | DatabaseIntegrityError
  | HTTPException (status_code : Z).

Inductive Result (A : Type) : Type :=
  | Ok (a : A)
  | Raise (e : Exn).
Arguments Ok {A} a.
Arguments Raise {A} e.

(** ** The world: Redis and the [auth_users] table *)

Inductive RedisCmd : Type :=
  | SETEX (key : string) (ttl : Z) (value : string)
  | GET (key : string)
  | DEL (key : string).

(** A row of [auth_users] ([app/models/auth_user.py], [app/db/base.py]). *)
Module AuthUser.
Record t : Type := mk {
  id : string;
  username : string;
  email : string;
  hashed_password : string;
  user_id : string
}.
End AuthUser.

(** [store] maps a key to its value and the instant at which it expires;
    [calls] is the sequence of commands sent to Redis, oldest first;
    [auth_users] holds the committed rows and [session_new] the rows flushed
    by the open session and not yet committed. *)
Record World : Type := mkWorld {
  store : gmap string (string * Z);
  calls : list RedisCmd;
  auth_users : list AuthUser.t;
  session_new : list AuthUser.t
}.

Definition M (A : Type) : Type := World → Result A * World.

Global Instance M_ret : MRet M := λ A a w, (Ok a, w).
Global Instance M_bind : MBind M := λ A B f m w,
  match m w with
  | (Ok a, w') => f a w'
  | (Raise e, w') => (Raise e, w')
  end.

Definition raise {A : Type} (e : Exn) : M A := λ w, (Raise e, w).

(** [try: m  except Exception as e: h e]. *)
Definition try_except {A : Type} (m : M A) (h : Exn → M A) : M A := λ w,
  match m w with
  | (Ok a, w') => (Ok a, w')
  | (Raise e, w') => h e w'
  end.

(** [m] never creates an entry under [key]. *)
Definition keeps_absent {A : Type} (key : string) (m : M A) : Prop :=
  ∀ w r w', m w = (r, w') → store w !! key = None → store w' !! key = None.

(** *** Redis commands

    The contract of the key-value store: [SETEX] refuses a time to live that
    is not positive; an entry whose time to live has elapsed is absent for
    [GET] and [DEL]. *)

Definition with_call (c : RedisCmd) (w : World) : World :=
  mkWorld (store w) (calls w ++ [c]) (auth_users w) (session_new w).

Definition with_store (s : gmap string (string * Z)) (w : World) : World :=
  mkWorld s (calls w) (auth_users w) (session_new w).

(** What [GET key] answers at instant [now]. *)
Definition live_value (s : gmap string (string * Z)) (key : string) (now : Z)
  : option string :=
  match s !! key with
  | Some (v, deadline) => if now <? deadline then Some v else None
  | None => None
  end.

Definition redis_get (key : string) (now : Z) : M (option string) := λ w,
  (Ok (live_value (store w) key now), with_call (GET key) w).

Definition redis_setex (key : string) (ttl : Z) (value : string) (now : Z)
  : M unit := λ w,
  let w' := with_call (SETEX key ttl value) w in
  if ttl <=? 0 then (Raise ResponseError, w')
  else (Ok (), with_store (<[key := (value, now + ttl * second)]> (store w')) w').

(** The number of keys removed. *)
Definition redis_delete (key : string) (now : Z) : M Z := λ w,
  let w' := with_call (DEL key) w in
  match live_value (store w) key now with
  | Some _ => (Ok 1, with_store (delete key (store w')) w')
  | None => (Ok 0, w')
  end.

(** How the client turns a key into bytes: [bool] and unknown types are
    refused, an [int] is sent as its decimal digits. *)
Definition redis_encode (v : Scalar) : Result string :=
  match v with
  | PStr s => Ok s
  | PInt n => Ok (pretty n)
  | PBool _ | PNone => Raise DataError
  end.

(** ** Settings ([app/core/config.py]) *)

Record Settings : Type := mkSettings {
  ALGORITHM : string;
  PRIVATE_KEY : string;
  PUBLIC_KEY : string;
  ACCESS_TOKEN_EXPIRE_MINUTES : Z;
  REFRESH_TOKEN_EXPIRE_DAYS : Z;
  TOKEN_BLACKLIST_ENABLED : bool
}.

(** [timedelta(minutes=m)] in microseconds. *)
Definition minutes (m : Z) : Z := m * 60 * second.

(** ** [app/core/security.py] *)

Section Security.
(** An access token is opaque to the service: it comes out of [jwt.encode]
    and only ever goes into [jwt.decode]. *)
Context {token : Type}.

(** [jwt.encode(claims, key, algorithm)]. *)
Variable jwt_encode : Dict → string → string → token.
(** [jwt.decode(token, key, algorithms=[algorithm])] at an instant; [None]
    when it raises [JWTError] (bad signature, malformed, expired). *)
Variable jwt_decode : token → string → string → Z → option Dict.
(** [json.dumps] of an object, and [json.loads] of the bytes read from
    Redis: the document, or the exception it raises, [JSONDecodeError] for
    text that is not JSON and [UnicodeDecodeError] for bytes that are not
    text. *)
Variable json_dumps : Dict → string.
Variable json_loads : string → Result Value.

Variable settings : Settings.

(** The [expire] of [create_access_token]; [expires_delta] is in
    microseconds and [timedelta(0)] is falsy. *)
Definition access_token_expire (expires_delta : option Z) (now : Z) : Z :=
  match expires_delta with
  | Some d => if d =? 0
              then now + minutes (ACCESS_TOKEN_EXPIRE_MINUTES settings)
              else now + d
  | None => now + minutes (ACCESS_TOKEN_EXPIRE_MINUTES settings)
  end.

(** The [datetime] stored under ["exp"] is encoded by the library as whole
    seconds. *)
Definition create_access_token (data : Dict) (expires_delta : option Z)
    (uuid4 : string) (now : Z) : token :=
  let to_encode := data in
  let jti := uuid4 in
  let to_encode := <["jti" := PStr jti]> to_encode in
  let expire := access_token_expire expires_delta now in
  let to_encode := <["exp" := PInt (timegm expire)]> to_encode in
  jwt_encode to_encode (PRIVATE_KEY settings) (ALGORITHM settings).

Definition blacklist_key (jti : Scalar) : string :=
  "blacklist_token:" +:+ py_str jti.

Definition refresh_key (tok : string) : string := "refresh_token:" +:+ tok.

(** [max(int(exp - now), 0)]; [TypeError] when [exp] is not a number. *)
Definition remaining_ttl (exp : Scalar) (now : Z) : Result Z :=
  match py_number exp with
  | Some e => Ok (Z.max (py_int (e * second - now)) 0)
  | None => Raise TypeError
  end.

Definition blacklist_token (tok : token) (now : Z) : M bool :=
  if negb (TOKEN_BLACKLIST_ENABLED settings) then mret true
  else
    try_except
      (match jwt_decode tok (PUBLIC_KEY settings) (ALGORITHM settings) now with
       | None => mret false
       | Some payload =>
         if bool_decide (payload = ∅) then mret false
         else
           let jti := py_get payload "jti" in
           if negb (truthy jti) then mret false
           else
             let exp := py_get payload "exp" in
             match remaining_ttl exp now with
             | Raise e => raise e
             | Ok ttl =>
               redis_setex (blacklist_key jti) ttl "1" now ;;
               mret true
             end
       end)
      (λ _, mret false).

Definition is_token_blacklisted (payload : Dict) (now : Z) : M bool :=
  if negb (TOKEN_BLACKLIST_ENABLED settings) then mret false
  else
    let jti := py_get payload "jti" in
    if negb (truthy jti) then mret false
    else
      result ← redis_get (blacklist_key jti) now ;
      mret (bool_decide (result ≠ None)).

Definition verify_token (tok : token) (now : Z) : M (option Dict) :=
  try_except (A := option Dict)
    (match jwt_decode tok (PUBLIC_KEY settings) (ALGORITHM settings) now with
     | None => raise JWTError
     | Some payload =>
       blacklisted ← is_token_blacklisted payload now ;
       if (blacklisted : bool) then mret None else mret (Some payload)
     end)
    (λ e, match e with JWTError => mret None | _ => raise e end).

Definition create_refresh_token (auth_user_id : string)
    (token_urlsafe : string) (now : Z) : M string :=
  let tok := token_urlsafe in
  let expiry_seconds := REFRESH_TOKEN_EXPIRE_DAYS settings * 24 * 60 * 60 in
  let expiry_timestamp := py_int (now + expiry_seconds * second) in
  let token_data : Dict :=
    {[ "auth_user_id" := PStr auth_user_id;
       "expires_at" := PInt expiry_timestamp ]} in
  redis_setex (refresh_key tok) expiry_seconds (json_dumps token_data) now ;;
  mret tok.

Definition revoke_refresh_token (tok : string) (now : Z) : M bool :=
  result ← redis_delete (refresh_key tok) now ;
  mret (0 <? result).

(** Returns [token_data.get("auth_user_id")], hence a scalar; [PNone] is
    Python's [None]. *)
Definition verify_refresh_token (tok : string) (now : Z) : M Scalar :=
  token_data_str ← redis_get (refresh_key tok) now ;
  match token_data_str with
  | None => mret PNone
  | Some s =>
    if bool_decide (s = "") then mret PNone
    else
      match json_loads s with
      | Raise JSONDecodeError => mret PNone
      | Raise e => raise e
      | Ok (Atom _) => raise AttributeError
      | Ok (Obj token_data) =>
        match py_number (default (PInt 0) (token_data !! "expires_at")) with
        | None => raise TypeError
        | Some expires_at =>
          if expires_at * second <? now then
            revoke_refresh_token tok now ;;
            raise JWTError
          else mret (py_get token_data "auth_user_id")
        end
      end
  end.

(** ** [app/api/v1/auth.py]: logout *)

Record LogoutRequest : Type := mkLogoutRequest {
  refresh_token : string;
  access_token : token
}.

(** The [except] clauses of [logout], in order. *)
Definition logout_except (e : Exn) : M string :=
  match e with
  | HTTPException c => raise (HTTPException c)
  | JWTError => raise (HTTPException 400)
  | _ => raise (HTTPException 500)
  end.

Definition logout (token_data : LogoutRequest) (now : Z) : M string :=
  try_except
    (refresh_result ← revoke_refresh_token (refresh_token token_data) now ;
     if negb refresh_result then raise (HTTPException 400)
     else
       blacklist_result ← blacklist_token (access_token token_data) now ;
       if negb blacklist_result then raise (HTTPException 400)
       else mret "ログアウトしました")
    logout_except.

End Security.

(** ** [app/core/redis.py]: the password escrow *)

Definition save_password_to_redis (username password : string)
    (ttl_seconds : Z) (now : Z) : M string :=
  let timestamp := py_int now in
  let key := "temp_password:" +:+ username +:+ ":" +:+ pretty timestamp in
  try_except
    (redis_setex key ttl_seconds password now ;; mret key)
    (λ e, raise e).

(** The key comes from a message field, so it is any scalar. *)
Definition get_password_from_redis (key : Scalar) (now : Z)
  : M (option string) :=
  try_except
    (match redis_encode key with
     | Raise e => raise e
     | Ok k =>
       password ← redis_get k now ;
       match password with
       | Some p => if bool_decide (p = "") then mret None else mret (Some p)
       | None => mret None
       end
     end)
    (λ _, mret None).

Definition delete_password_from_redis (key : Scalar) (now : Z) : M bool :=
  try_except
    (match redis_encode key with
     | Raise e => raise e
     | Ok k =>
       result ← redis_delete k now ;
       if negb (result =? 0) then mret true else mret false
     end)
    (λ _, mret false).

(** ** [app/schemas/auth_user.py], [app/crud/auth_user.py] and
       [app/messaging/auth_handler.py] *)

Module AuthUserCreate.
Record t : Type := mk {
  username : string;
  email : string;
  password : string
}.
End AuthUserCreate.

(** The database session: [add] followed by [flush] inserts inside the open
    transaction and checks the unique indexes; which violated index the
    database reports first is fixed here as username, email, user_id, id. *)
Definition violated (rows : list AuthUser.t) (r : AuthUser.t)
  : option IntegrityConstraint :=
  if bool_decide (AuthUser.username r ∈ AuthUser.username <$> rows)
  then Some UqUsername
  else if bool_decide (AuthUser.email r ∈ AuthUser.email <$> rows)
  then Some UqEmail
  else if bool_decide (AuthUser.user_id r ∈ AuthUser.user_id <$> rows)
  then Some UqUserId
  else if bool_decide (AuthUser.id r ∈ AuthUser.id <$> rows)
  then Some PkId
  else None.

Definition session_add_flush (r : AuthUser.t) : M unit := λ w,
  match violated (auth_users w ++ session_new w) r with
  | Some c => (Raise (IntegrityError c), w)
  | None =>
    (Ok (), mkWorld (store w) (calls w) (auth_users w) (session_new w ++ [r]))
  end.

Definition session_rollback : M unit := λ w,
  (Ok (), mkWorld (store w) (calls w) (auth_users w) []).

Definition session_commit : M unit := λ w,
  (Ok (), mkWorld (store w) (calls w) (auth_users w ++ session_new w) []).

(** [async for session in get_async_session(): body]: a fresh session, the
    body once, then the commit that follows the generator's [yield].  An
    exception of the body leaves the loop before the commit. *)
Definition for_async_session {A : Type} (body : M A) : M A :=
  session_rollback ;;
  a ← body ;
  session_commit ;;
  mret a.

Section Registration.
(** [passlib]'s hash, [uuid.UUID(s)] and pydantic's [EmailStr]; [None]
    where the latter two raise. *)
Variable get_password_hash : string → string.
Variable uuid_parse : string → option string.
Variable email_validate : string → option string.
(** [str(e.orig).lower()] of the [IntegrityError] that the database driver
    raises for a violated index and the row that violates it. *)
Variable integrity_message : IntegrityConstraint → AuthUser.t → string.

(** [AuthUserCreate(username=…, email=…, password=…)] with its field
    constraints. *)
Definition AuthUserCreate_init (username email : Scalar) (password : string)
  : Result AuthUserCreate.t :=
  match username, email with
  | PStr u, PStr e =>
    if (3 <=? str_len u) && (str_len u <=? 50) then
      match email_validate e with
      | Some e' =>
        if (1 <=? str_len password) && (str_len password <=? 16)
        then Ok (AuthUserCreate.mk u e' password)
        else Raise ValidationError
      | None => Raise ValidationError
      end
    else Raise ValidationError
  | _, _ => Raise ValidationError
  end.

(** [uuid.UUID(user_id)] on a message field. *)
Definition uuid_UUID (v : Value) : Result string :=
  match v with
  | Atom (PStr s) =>
    match uuid_parse s with
    | Some u => Ok u
    | None => Raise ValueError
    end
  | _ => Raise AttributeError
  end.

(** [uuid4] is the primary key drawn by the column default.  The exception
    class is chosen by what the text of the database error contains. *)
Definition create_with_user_id (obj_in : AuthUserCreate.t) (user_id : string)
    (uuid4 : string) : M AuthUser.t :=
  let db_obj :=
    AuthUser.mk uuid4 (AuthUserCreate.username obj_in)
      (AuthUserCreate.email obj_in)
      (get_password_hash (AuthUserCreate.password obj_in)) user_id in
  try_except
    (session_add_flush db_obj)
    (λ e, match e with
          | IntegrityError c =>
            let orig := integrity_message c db_obj in
            if py_in "username" orig then raise DuplicateUsernameError
            else if py_in "email" orig then raise DuplicateEmailError
            else if py_in "user_id" orig then raise DatabaseIntegrityError
            else raise DatabaseIntegrityError
          | _ => raise e
          end) ;;
  mret db_obj.

Definition lift {A : Type} (r : Result A) : M A :=
  match r with
  | Ok a => mret a
  | Raise e => raise e
  end.

(** The part of the handler that creates the local credential record. *)
Definition create_local_record (username email : Scalar) (password : string)
    (user_id : Value) (uuid4 : string) : M AuthUser.t :=
  user_create ← lift (AuthUserCreate_init username email password) ;
  uid ← lift (uuid_UUID user_id) ;
  create_with_user_id user_create uid uuid4.

Definition handle_user_creation_response (user_data : gmap string Value)
    (uuid4 : string) (now : Z) : M unit :=
  try_except
    (let user_id := default (Atom PNone) (user_data !! "id") in
     if negb (truthy_value user_id) then mret ()
     else
       original_request ←
         match default (Obj ∅) (user_data !! "original_request") with
         | Obj d => mret d
         | Atom _ => raise AttributeError
         end ;
       let username := py_get original_request "username" in
       let email := py_get original_request "email" in
       let password_key := py_get original_request "password_key" in
       if negb (truthy username) || negb (truthy email)
          || negb (truthy password_key)
       then mret ()
       else
         password ← get_password_from_redis password_key now ;
         match password with
         | None => mret ()
         | Some password =>
           if bool_decide (password = "") then mret ()
           else
             for_async_session
               (try_except
                  (create_local_record username email password user_id
                     uuid4 ;;
                   delete_password_from_redis password_key now ;;
                   mret ())
                  (λ e, session_rollback ;; raise e))
         end)
    (λ _, mret ()).

End Registration.

(** ** Sequences of calls

    The coroutines that reach Redis, as requests served one after another,
    each at its own instant. *)

Section Service.
Context {token : Type}.
Variable jwt_decode : token → string → string → Z → option Dict.
Variable json_dumps : Dict → string.
Variable json_loads : string → Result Value.
Variable settings : Settings.
Variable get_password_hash : string → string.
Variable uuid_parse : string → option string.
Variable email_validate : string → option string.
Variable integrity_message : IntegrityConstraint → AuthUser.t → string.

Inductive Call : Type :=
  | CreateRefreshToken (auth_user_id token_urlsafe : string)
  | VerifyRefreshToken (tok : string)
  | RevokeRefreshToken (tok : string)
  | BlacklistToken (tok : token)
  | VerifyToken (tok : token)
  | Logout (req : @LogoutRequest token)
  | SavePassword (username password : string) (ttl_seconds : Z)
  | GetPassword (key : Scalar)
  | DeletePassword (key : Scalar)
  | CreationCompleted (user_data : gmap string Value) (uuid4 : string).

(** The world after the call, whatever it returned or raised. *)
Definition run_call (c : Call) (now : Z) (w : World) : World :=
  match c with
  | CreateRefreshToken u t => (create_refresh_token json_dumps settings u t now w).2
  | VerifyRefreshToken t => (verify_refresh_token json_loads t now w).2
  | RevokeRefreshToken t => (revoke_refresh_token t now w).2
  | BlacklistToken t => (blacklist_token jwt_decode settings t now w).2
  | VerifyToken t => (verify_token jwt_decode settings t now w).2
  | Logout req => (logout jwt_decode settings req now w).2
  | SavePassword u p ttl => (save_password_to_redis u p ttl now w).2
  | GetPassword k => (get_password_from_redis k now w).2
  | DeletePassword k => (delete_password_from_redis k now w).2
  | CreationCompleted d u =>
    (handle_user_creation_response get_password_hash uuid_parse
       email_validate integrity_message d u now w).2
  end.

Fixpoint run_calls (cs : list (Call * Z)) (w : World) : World :=
  match cs with
  | [] => w
  | (c, now) :: cs => run_calls cs (run_call c now w)
  end.

(** The call stores a refresh-token record under the token value [tok]. *)
Definition issues (tok : string) (c : Call) : Prop :=
  match c with
  | CreateRefreshToken _ t => t = tok
  | _ => False
  end.

End Service.

(** ** What is assumed of the token library

    [jwt.decode], called as the service calls it (no audience, issuer,
    subject or access token given), checks the signature and then the
    registered claims: it refuses a subject that is not a string, any
    audience, an [at_hash], a [jti] that is not a string, and an [nbf] that
    lies in the future. *)

(** Claims that pass these checks at instant [now], [jti] and [exp] left
    aside: [iat] and [nbf] absent or numbers, [nbf] not in the future, no
    [aud], [sub] absent or a string, no [at_hash]. *)
Definition claims_acceptable (claims : Dict) (now : Z) : bool :=
  match claims !! "iat" with
  | None => true
  | Some v => bool_decide (is_Some (py_number v))
  end
  && match claims !! "nbf" with
     | None => true
     | Some v =>
       match py_number v with
       | Some nbf => nbf <=? timegm now
       | None => false
       end
     end
  && bool_decide (claims !! "aud" = None)
  && match claims !! "sub" with
     | None | Some (PStr _) => true
     | Some _ => false
     end
  && bool_decide (claims !! "at_hash" = None).

Definition jose_validates (claims : Dict) (now : Z) : bool :=
  claims_acceptable claims now
  && match claims !! "jti" with
     | None | Some (PStr _) => true
     | Some _ => false
     end.

(** A payload that passes the checks and is signed with the private key
    decodes, with the public key, to itself for as long as its integer
    ["exp"] has not passed. *)
Definition jwt_round_trip {token : Type}
    (jwt_encode : Dict → string → string → token)
    (jwt_decode : token → string → string → Z → option Dict)
    (private_key public_key algorithm : string) : Prop :=
  ∀ (claims : Dict) (exp t : Z),
    claims !! "exp" = Some (PInt exp) →
    timegm t ≤ exp →
    jose_validates claims t = true →
    jwt_decode (jwt_encode claims private_key algorithm) public_key algorithm t
    = Some claims.

(** ** A symbolic instance of the collaborators

    Used to run the functions on concrete inputs: a token is the pair of its
    payload and the key that signed it, and a key pair carries one name. *)

Definition sym_encode (claims : Dict) (key algorithm : string)
  : Dict * string := (claims, key).

Definition sym_decode (tok : Dict * string) (key algorithm : string) (now : Z)
  : option Dict :=
  if bool_decide (tok.2 = key) then
    if jose_validates tok.1 now then
      match tok.1 !! "exp" with
      | None => Some tok.1
      | Some v =>
        match py_number v with
        | Some e => if e <? timegm now then None else Some tok.1
        | None => None
        end
      end
    else None
  else None.

(** The byte [0xff], which occurs in no text. *)
Definition not_text : string := String "255" "".

(** Only the empty object parses, and the byte [0xff] is not text: enough to
    run the malformed-record paths. *)
Definition sym_json_loads (s : string) : Result Value :=
  if bool_decide (s = "{}") then Ok (Obj ∅)
  else if bool_decide (s = not_text) then Raise UnicodeDecodeError
  else Raise JSONDecodeError.

Definition sym_json_dumps (d : Dict) : string := "{}".

Definition sym_hash (password : string) : string := "hash:" +:+ password.
Definition sym_uuid_parse (s : string) : option string :=
  if bool_decide (String.length s = 36%nat) then Some s else None.
Definition sym_email_validate (s : string) : option string :=
  if bool_decide (s = "") then None else Some s.

(** The text of a unique violation as PostgreSQL words it, in lower case:
    the name of the index, then the column and the value. *)
Definition unique_violation (index column value : string) : string :=
  "duplicate key value violates unique constraint " +:+ index
  +:+ " detail: key (" +:+ column +:+ ")=(" +:+ value +:+ ") already exists.".

Definition sym_integrity_message (c : IntegrityConstraint) (r : AuthUser.t)
  : string :=
  match c with
  | UqUsername =>
    unique_violation "ix_auth_users_username" "username" (AuthUser.username r)
  | UqEmail => unique_violation "ix_auth_users_email" "email" (AuthUser.email r)
  | UqUserId =>
    unique_violation "ix_auth_users_user_id" "user_id" (AuthUser.user_id r)
  | PkId => unique_violation "auth_users_pkey" "id" (AuthUser.id r)
  end.

Definition demo_settings (blacklist_enabled : bool) : Settings :=
  mkSettings "RS256" "key-1" "key-1" 30 7 blacklist_enabled.

Definition empty_world : World := mkWorld ∅ [] [] [].

(** A token of user [u1] that expires at second 110, and the same claims
    without a [jti]. *)
Definition demo_payload : Dict :=
  {[ "sub" := PStr "u1"; "jti" := PStr "jti-1"; "exp" := PInt 110 ]}.
Definition demo_token : Dict * string := sym_encode demo_payload "key-1" "RS256".

Definition legacy_payload : Dict :=
  {[ "sub" := PStr "u1"; "exp" := PInt 110 ]}.
Definition legacy_token : Dict * string :=
  sym_encode legacy_payload "key-1" "RS256".

(** A store that holds one refresh-token record, here one that is not JSON,
    and one whose record is not even text. *)
Definition refresh_world : World :=
  mkWorld {[ "refresh_token:r-1" := ("not json", 1000 * second) ]} [] [] [].

Definition garbled_world : World :=
  mkWorld {[ "refresh_token:r-1" := (not_text, 1000 * second) ]} [] [] [].

(** A pending registration of [bob]: the escrowed password and the
    creation-completed message that names it. *)
Definition escrow_world (rows : list AuthUser.t) : World :=
  mkWorld {[ "temp_password:bob:100" := ("p@ss", 400 * second) ]} [] rows [].

Definition bob_request : Dict :=
  {[ "username" := PStr "bob"; "email" := PStr "bob@example.com";
     "password_key" := PStr "temp_password:bob:100" ]}.

Definition bob_completed : gmap string Value :=
  {[ "id" := Atom (PStr "0f8fad5b-d9cb-469f-a165-70867728950e");
     "username" := Atom (PStr "bob");
     "email" := Atom (PStr "bob@example.com");
     "original_request" := Obj bob_request ]}.

Definition bob_row : AuthUser.t :=
  AuthUser.mk "id-1" "bob" "bob@example.com" "hash:p@ss"
    "0f8fad5b-d9cb-469f-a165-70867728950e".

(** ** [app/crud/auth_user.py]: lookups *)

(** What a lookup raises instead of returning a row. *)
Inductive CrudError : Type :=
  | UserNotFoundError
  | MultipleResultsFound.

(** [result.scalar_one_or_none()] followed by
    [if user: ... else: raise UserNotFoundError]. *)
Definition scalar_one_or_raise (rows : list AuthUser.t)
  : CrudError + AuthUser.t :=
  match rows with
  | [] => inl UserNotFoundError
  | [user] => inr user
  | _ => inl MultipleResultsFound
  end.

(** [select(AuthUser).filter(AuthUser.id == id)]; the parameter is whatever
    the caller holds, and no row equals [None] or a number. *)
Definition get_by_id (id : Scalar) (rows : list AuthUser.t)
  : CrudError + AuthUser.t :=
  scalar_one_or_raise (filter (λ r, PStr (AuthUser.id r) = id) rows).

Definition get_by_username (username : string) (rows : list AuthUser.t)
  : CrudError + AuthUser.t :=
  scalar_one_or_raise (filter (λ r, AuthUser.username r = username) rows).

Definition get_by_user_id (user_id : Scalar) (rows : list AuthUser.t)
  : CrudError + AuthUser.t :=
  scalar_one_or_raise (filter (λ r, PStr (AuthUser.user_id r) = user_id) rows).

(** The committed rows, as a query of a request's own session sees them. *)
Definition select_auth_users : M (list AuthUser.t) := λ w,
  (Ok (auth_users w), w).

(** The unique indexes of [auth_users] ([app/models/auth_user.py]). *)
Definition unique_rows (rows : list AuthUser.t) : Prop :=
  NoDup (AuthUser.username <$> rows)
  ∧ NoDup (AuthUser.email <$> rows)
  ∧ NoDup (AuthUser.user_id <$> rows)
  ∧ NoDup (AuthUser.id <$> rows).

(** ** [app/api/v1/auth.py]: register, login, refresh; [app/api/deps.py] *)

(** The [except] clauses shared by [logout] and [refresh_token]. *)
Definition http_except {A : Type} (e : Exn) : M A :=
  match e with
  | HTTPException c => raise (HTTPException c)
  | JWTError => raise (HTTPException 400)
  | _ => raise (HTTPException 500)
  end.

Module RefreshTokenRequest.
Record t {token : Type} : Type := mk {
  refresh_token : string;
  access_token : token
}.
Arguments t : clear implicits.
End RefreshTokenRequest.

(** What a dependency can do: return, raise one of the exceptions of [Exn],
    or let a lookup error through. *)
Inductive Outcome (A : Type) : Type :=
  | Returns (a : A)
  | Raises (e : Exn)
  | RaisesCrud (e : CrudError).
Arguments Returns {A} a.
Arguments Raises {A} e.
Arguments RaisesCrud {A} e.

Section Endpoints.
Context {token : Type}.
Variable jwt_encode : Dict → string → string → token.
Variable jwt_decode : token → string → string → Z → option Dict.
Variable json_dumps : Dict → string.
Variable json_loads : string → Result Value.
Variable settings : Settings.
(** [passlib]'s [verify(plain, hashed)]. *)
Variable verify_password : string → string → bool.
(** [publish_user_created] of the auth service's broker client. *)
Variable publish_user_created : Dict → M unit.

(** The claims that [login] and [refresh_token] put in an access token. *)
Definition access_claims (db_user : AuthUser.t) : Dict :=
  {[ "sub" := PStr (AuthUser.id db_user);
     "user_id" := PStr (AuthUser.user_id db_user);
     "username" := PStr (AuthUser.username db_user) ]}.

(** [register_auth_user]; the 202 body repeats the username and e-mail. *)
Definition register_auth_user (user_in : AuthUserCreate.t) (now : Z)
  : M (string * string) :=
  try_except
    (password_key ←
       save_password_to_redis (AuthUserCreate.username user_in)
         (AuthUserCreate.password user_in) 300 now ;
     let user_data : Dict :=
       {[ "username" := PStr (AuthUserCreate.username user_in);
          "email" := PStr (AuthUserCreate.email user_in);
          "password_key" := PStr password_key ]} in
     publish_user_created user_data ;;
     mret (AuthUserCreate.username user_in, AuthUserCreate.email user_in))
    (λ _, raise (HTTPException 500)).

(** [login]: returns the access token and the refresh token. *)
Definition login (username password : string) (uuid4 token_urlsafe : string)
    (now : Z) : M (token * string) :=
  rows ← select_auth_users ;
  match get_by_username username rows with
  | inl UserNotFoundError => raise (HTTPException 401)
  | inl _ => raise (HTTPException 500)
  | inr db_user =>
    if negb (verify_password password (AuthUser.hashed_password db_user))
    then raise (HTTPException 401)
    else
      let access_token_expires :=
        minutes (ACCESS_TOKEN_EXPIRE_MINUTES settings) in
      let access_token :=
        create_access_token jwt_encode settings (access_claims db_user)
          (Some access_token_expires) uuid4 now in
      refresh_token ←
        create_refresh_token json_dumps settings (AuthUser.id db_user)
          token_urlsafe now ;
      mret (access_token, refresh_token)
  end.

(** [refresh_token], the endpoint. *)
Definition refresh_token_endpoint (token_data : RefreshTokenRequest.t token)
    (uuid4 token_urlsafe : string) (now : Z) : M (token * string) :=
  try_except
    (auth_user_id ←
       try_except
         (verify_refresh_token json_loads
            (RefreshTokenRequest.refresh_token token_data) now)
         (λ _, raise (HTTPException 401)) ;
     rows ← select_auth_users ;
     db_user ←
       match get_by_id auth_user_id rows with
       | inl UserNotFoundError => raise (HTTPException 401)
       | inl _ => raise (HTTPException 500)
       | inr db_user => mret db_user
       end ;
     refresh_result ←
       revoke_refresh_token (RefreshTokenRequest.refresh_token token_data) now ;
     if negb refresh_result then raise (HTTPException 400)
     else
       blacklist_result ←
         blacklist_token jwt_decode settings
           (RefreshTokenRequest.access_token token_data) now ;
       if negb blacklist_result then raise (HTTPException 400)
       else
         let access_token_expires :=
           minutes (ACCESS_TOKEN_EXPIRE_MINUTES settings) in
         let access_token :=
           create_access_token jwt_encode settings (access_claims db_user)
             (Some access_token_expires) uuid4 now in
         new_refresh_token ←
           create_refresh_token json_dumps settings (AuthUser.id db_user)
             token_urlsafe now ;
         if bool_decide (new_refresh_token = "")
         then raise (HTTPException 500)
         else mret (access_token, new_refresh_token))
    http_except.

(** [get_current_user] of [app/api/deps.py]. *)
Definition get_current_user (tok : token) (now : Z) (w : World)
  : Outcome AuthUser.t * World :=
  match verify_token jwt_decode settings tok now w with
  | (Raise JWTError, w') | (Raise ValidationError, w') =>
    (Raises (HTTPException 401), w')
  | (Raise e, w') => (Raises e, w')
  | (Ok None, w') => (Raises (HTTPException 401), w')
  | (Ok (Some payload), w') =>
    let user_id := py_get payload "user_id" in
    if bool_decide (user_id = PNone) then (Raises (HTTPException 401), w')
    else
      match get_by_user_id user_id (auth_users w') with
      | inr user => (Returns user, w')
      | inl e => (RaisesCrud e, w')
      end
  end.

End Endpoints.

(** The JSON codec gives back the object [d] it wrote. *)
Definition json_round_trip_on (json_dumps : Dict → string)
    (json_loads : string → Result Value) (d : Dict) : Prop :=
  json_dumps d ≠ "" ∧ json_loads (json_dumps d) = Ok (Obj d).

(** ** The user service

    [user-service/app/crud/user.py], [app/messaging/rabbitmq.py] and
    [app/messaging/user_handler.py].  Its world is its own [users] table,
    the messages the broker has accepted, oldest first, and the broker
    client. *)

Module User.
Record t : Type := mk {
  id : string;
  username : string;
  email : string
}.
End User.

Module UserCreate.
Record t : Type := mk {
  username : string;
  email : string
}.
End UserCreate.

(** A value of [response_data] before serialization: a [uuid.UUID] or
    anything else. *)
Inductive RawValue : Type :=
  | RawUUID (u : string)
  | Plain (v : Value).

(** A message as [publish_user_event] sends it. *)
Record Published : Type := mkPublished {
  routing_key : string;
  event_type : string;
  user_data : gmap string Value
}.

(** [is_initialized] is the flag of the broker client; [broker_up] says
    whether the broker can be reached while the call runs. *)
Record UserWorld : Type := mkUserWorld {
  users : list User.t;
  users_new : list User.t;
  outbox : list Published;
  is_initialized : bool;
  broker_up : bool
}.

Definition UM (A : Type) : Type := UserWorld → Result A * UserWorld.

Global Instance UM_ret : MRet UM := λ A a w, (Ok a, w).
Global Instance UM_bind : MBind UM := λ A B f m w,
  match m w with
  | (Ok a, w') => f a w'
  | (Raise e, w') => (Raise e, w')
  end.

Definition uraise {A : Type} (e : Exn) : UM A := λ w, (Raise e, w).

Definition utry_except {A : Type} (m : UM A) (h : Exn → UM A) : UM A := λ w,
  match m w with
  | (Ok a, w') => (Ok a, w')
  | (Raise e, w') => h e w'
  end.

(** [_serialize_user_data]: a UUID becomes its string, the rest is kept. *)
Definition _serialize_user_data (user_data : gmap string RawValue)
  : gmap string Value :=
  (λ value, match value with
            | RawUUID u => Atom (PStr u)
            | Plain v => v
            end) <$> user_data.

(** [RabbitMQClient.initialize]: connects unless that is done; a failure to
    connect is logged and raised again. *)
Definition initialize : UM unit := λ w,
  if is_initialized w then (Ok (), w)
  else if broker_up w
  then (Ok (),
        mkUserWorld (users w) (users_new w) (outbox w) true (broker_up w))
  else (Raise AMQPError, w).

(** [auth_events_exchange.publish(message, routing_key)]. *)
Definition exchange_publish (message : Published) : UM unit := λ w,
  if broker_up w
  then (Ok (),
        mkUserWorld (users w) (users_new w) (outbox w ++ [message])
          (is_initialized w) (broker_up w))
  else (Raise AMQPError, w).

(** [publish_user_event]: the routing key is the literal ["user.created"]
    whatever the event type; the connection is set up outside the [try], and
    a failure to publish is logged and swallowed. *)
Definition publish_user_event (event_type : string)
    (user_data : gmap string RawValue) : UM unit :=
  (λ w, if negb (is_initialized w) then initialize w else (Ok (), w)) ;;
  utry_except
    (exchange_publish
       (mkPublished "user.created" event_type
          (_serialize_user_data user_data)))
    (λ _, mret ()).

Definition publish_user_created (user_data : gmap string RawValue)
  : UM unit := publish_user_event "user.created" user_data.

Definition publish_user_updated (user_data : gmap string RawValue)
  : UM unit := publish_user_event "user.updated" user_data.

Definition publish_user_deleted (user_data : gmap string RawValue)
  : UM unit := publish_user_event "user.deleted" user_data.

(** The unique indexes of [users], named in the order username, email, id. *)
Definition user_violated (rows : list User.t) (r : User.t)
  : option IntegrityConstraint :=
  if bool_decide (User.username r ∈ User.username <$> rows)
  then Some UqUsername
  else if bool_decide (User.email r ∈ User.email <$> rows)
  then Some UqEmail
  else if bool_decide (User.id r ∈ User.id <$> rows)
  then Some PkId
  else None.

Definition user_session_add_flush (r : User.t) : UM unit := λ w,
  match user_violated (users w ++ users_new w) r with
  | Some c => (Raise (IntegrityError c), w)
  | None =>
    (Ok (),
     mkUserWorld (users w) (users_new w ++ [r]) (outbox w)
       (is_initialized w) (broker_up w))
  end.

Definition user_session_rollback : UM unit := λ w,
  (Ok (),
   mkUserWorld (users w) [] (outbox w) (is_initialized w) (broker_up w)).

Definition user_session_commit : UM unit := λ w,
  (Ok (),
   mkUserWorld (users w ++ users_new w) [] (outbox w) (is_initialized w)
     (broker_up w)).

(** Modelled from the spec: [get_async_session] of the user service
    ([user-service/app/db/session.py]) is not among the sources.  The remote
    consumer of the specification creates the durable account and then
    publishes the completion; [CRUDUser.create] leaves the commit to the
    session.  The generator is taken to be the one of the auth service: a
    fresh session, the body once, then the commit; an exception of the body
    leaves the loop before the commit. *)
Definition user_for_async_session {A : Type} (body : UM A) : UM A :=
  user_session_rollback ;;
  a ← body ;
  user_session_commit ;;
  mret a.

Section UserService.
Variable email_validate : string → option string.
(** [str(e.orig).lower()] of the user service's database driver. *)
Variable user_integrity_message : IntegrityConstraint → User.t → string.

(** [CRUDUser.create]; the exception class is chosen by what the text of the
    database error contains. *)
Definition user_crud_create (obj_in : UserCreate.t) (uuid4 : string)
  : UM User.t :=
  let db_obj :=
    User.mk uuid4 (UserCreate.username obj_in) (UserCreate.email obj_in) in
  utry_except
    (user_session_add_flush db_obj)
    (λ e, match e with
          | IntegrityError c =>
            let orig := user_integrity_message c db_obj in
            if py_in "username" orig then uraise DuplicateUsernameError
            else if py_in "email" orig then uraise DuplicateEmailError
            else uraise DatabaseIntegrityError
          | _ => uraise e
          end) ;;
  mret db_obj.

(** [UserCreate(username=…, email=…)]: a string and an e-mail address. *)
Definition UserCreate_init (username email : Scalar) : Result UserCreate.t :=
  match username, email with
  | PStr u, PStr e =>
    match email_validate e with
    | Some e' => Ok (UserCreate.mk u e')
    | None => Raise ValidationError
    end
  | _, _ => Raise ValidationError
  end.

Definition handle_user_creation_request (user_data : Dict) (uuid4 : string)
  : UM unit :=
  utry_except
    (user_for_async_session
       (utry_except
          (user_create ←
             match UserCreate_init (py_get user_data "username")
                     (py_get user_data "email") with
             | Ok c => mret c
             | Raise e => uraise e
             end ;
           new_user ← user_crud_create user_create uuid4 ;
           let response_data : gmap string RawValue :=
             {[ "id" := RawUUID (User.id new_user);
                "username" := Plain (Atom (PStr (User.username new_user)));
                "email" := Plain (Atom (PStr (User.email new_user)));
                "original_request" := Plain (Obj user_data) ]} in
           publish_user_created response_data)
          (λ e, user_session_rollback ;; uraise e)))
    (λ _, mret ()).

End UserService.

(** ** More symbolic collaborators *)

Definition sym_verify_password (plain hashed : string) : bool :=
  bool_decide (hashed = sym_hash plain).

(** A JSON codec that knows one record, the one [create_refresh_token]
    writes for user [id-1] at second 100 with seven days to live. *)
Definition one_record : Dict :=
  {[ "auth_user_id" := PStr "id-1"; "expires_at" := PInt 604900 ]}.

Definition one_json_dumps (d : Dict) : string :=
  if bool_decide (d = one_record) then "one-record" else "{}".

Definition one_json_loads (s : string) : Result Value :=
  if bool_decide (s = "one-record") then Ok (Obj one_record)
  else sym_json_loads s.

(** A broker that accepts everything, and one that is down. *)
Definition publish_ok (user_data : Dict) : M unit := mret ().
Definition publish_down (user_data : Dict) : M unit := raise ValueError.

Definition alice_row : AuthUser.t :=
  AuthUser.mk "id-1" "alice" "alice@example.com" "hash:secret"
    "1b4e28ba-2fa1-11d2-883f-0016d3cca427".

Definition alice_world : World := mkWorld ∅ [] [alice_row] [].

(** [alice]'s session: her row and a refresh-token record for her id. *)
Definition session_world : World :=
  mkWorld {[ "refresh_token:r-1" := ("one-record", 604900 * second) ]} []
    [alice_row] [].

(** The same record kept by the store a second longer than it says. *)
Definition stale_world : World :=
  mkWorld {[ "refresh_token:r-1" := ("one-record", 604901 * second) ]} []
    [alice_row] [].

Definition demo_logout : @LogoutRequest (Dict * string) :=
  mkLogoutRequest "r-1" demo_token.

Definition demo_refresh : RefreshTokenRequest.t (Dict * string) :=
  @RefreshTokenRequest.mk (Dict * string) "r-1" demo_token.

(** The user service with its broker in reach, and with a broker that went
    away after the client had connected. *)
Definition empty_user_world : UserWorld := mkUserWorld [] [] [] false true.

Definition cut_off_user_world : UserWorld := mkUserWorld [] [] [] true false.

Definition sym_user_integrity_message (c : IntegrityConstraint) (r : User.t)
  : string :=
  match c with
  | UqUsername =>
    unique_violation "ix_users_username" "username" (User.username r)
  | UqEmail => unique_violation "ix_users_email" "email" (User.email r)
  | UqUserId | PkId => unique_violation "users_pkey" "id" (User.id r)
  end.

Definition bob_signup : AuthUserCreate.t :=
  AuthUserCreate.mk "bob" "bob@example.com" "p@ss".

(** * Properties *)

Example py_int_truncates : py_int 9500000 = 9 ∧ py_int (-500000) = 0.
Proof. done. Qed.

Example remaining_ttl_of_half_second :
  remaining_ttl (PInt 110) 109500000 = Ok 0
  ∧ remaining_ttl (PInt 110) 100500000 = Ok 9
  ∧ remaining_ttl PNone 100500000 = Raise TypeError.
Proof. done. Qed.

Example setex_refuses_zero :
  (redis_setex "k" 0 "1" 0 empty_world).1 = Raise ResponseError.
Proof. done. Qed.

(** Lengths count characters: a name of two kanji is too short for
    [AuthUserCreate] although it takes six bytes, and one of seventeen kana
    is accepted although it takes fifty-one. *)
Example username_length_counts_characters :
  str_len "山田" = 2
  ∧ AuthUserCreate_init sym_email_validate (PStr "山田")
      (PStr "yamada@example.com") "p@ss"
    = Raise ValidationError
  ∧ str_len "あいうえおかきくけこさしすせそたち" = 17
  ∧ AuthUserCreate_init sym_email_validate
      (PStr "あいうえおかきくけこさしすせそたち") (PStr "kana@example.com")
      "p@ss"
    = Ok (AuthUserCreate.mk "あいうえおかきくけこさしすせそたち"
            "kana@example.com" "p@ss").
Proof. by vm_compute. Qed.

(** The class of a clash is read off the text of the database error: an
    e-mail address that contains the word counts as a duplicate username. *)
Example email_clash_reported_as_username :
  (create_with_user_id sym_hash sym_integrity_message
     (AuthUserCreate.mk "carol" "username1@example.com" "p@ss")
     "0f8fad5b-d9cb-469f-a165-70867728950e" "id-2"
     (mkWorld ∅ []
        [AuthUser.mk "id-1" "dave" "username1@example.com" "hash:x"
           "1b4e28ba-2fa1-11d2-883f-0016d3cca427"] [])).1
  = Raise DuplicateUsernameError.
Proof. by vm_compute. Qed.

(** Unfolds the monad. *)
Ltac run :=
  repeat (cbv beta delta
            [mbind mret M_bind M_ret raise try_except redis_get redis_setex
             redis_delete with_call with_store] || cbn [fst snd store calls
             auth_users session_new]).

Section SecurityProperties.
Context {token : Type}.
Variable jwt_encode : Dict → string → string → token.
Variable jwt_decode : token → string → string → Z → option Dict.
Variable json_dumps : Dict → string.
Variable json_loads : string → Result Value.
Variable settings : Settings.

Lemma is_token_blacklisted_run (payload : Dict) (now : Z) (w : World) :
  is_token_blacklisted settings payload now w =
  if TOKEN_BLACKLIST_ENABLED settings && truthy (py_get payload "jti")
  then (Ok (bool_decide
              (live_value (store w) (blacklist_key (py_get payload "jti")) now
               ≠ None)),
        with_call (GET (blacklist_key (py_get payload "jti"))) w)
  else (Ok false, w).
Proof.
  unfold is_token_blacklisted.
  destruct (TOKEN_BLACKLIST_ENABLED settings); cbn [negb andb]; [|done].
  destruct (truthy (py_get payload "jti")); cbn [negb]; done.
Qed.

Lemma verify_token_run (tok : token) (now : Z) (w : World) :
  (verify_token jwt_decode settings tok now w).1 =
  match jwt_decode tok (PUBLIC_KEY settings) (ALGORITHM settings) now with
  | None => Ok None
  | Some payload =>
    if TOKEN_BLACKLIST_ENABLED settings && truthy (py_get payload "jti")
       && bool_decide
            (live_value (store w) (blacklist_key (py_get payload "jti")) now
             ≠ None)
    then Ok None
    else Ok (Some payload)
  end.
Proof.
  unfold verify_token. run.
  destruct (jwt_decode tok _ _ now) as [payload|]; [|done].
  rewrite is_token_blacklisted_run.
  destruct (TOKEN_BLACKLIST_ENABLED settings && truthy (py_get payload "jti"));
    cbn [andb]; [|done].
  by case_bool_decide.
Qed.

(** C1 (as amended): [verify_token] reads the revocation registry, but
    only the entry of the token's own [jti].  In two registry states that
    agree on whether that entry is live, it returns the same result; when
    the token does not decode, the blacklist is switched off or the payload
    has no [jti], nothing is required of the two states. *)
Theorem verify_token_reads_own_entry_only
    (tok : token) (now : Z) (w1 w2 : World) :
  (∀ payload,
     jwt_decode tok (PUBLIC_KEY settings) (ALGORITHM settings) now
     = Some payload →
     TOKEN_BLACKLIST_ENABLED settings = true →
     truthy (py_get payload "jti") = true →
     (live_value (store w1) (blacklist_key (py_get payload "jti")) now = None
      ↔ live_value (store w2) (blacklist_key (py_get payload "jti")) now
        = None)) →
  (verify_token jwt_decode settings tok now w1).1
  = (verify_token jwt_decode settings tok now w2).1.
Proof.
  intros Hagree. rewrite !verify_token_run.
  destruct (jwt_decode tok _ _ now) as [payload|] eqn:Hdec; [|done].
  destruct (TOKEN_BLACKLIST_ENABLED settings) eqn:Hen; [|done].
  destruct (truthy (py_get payload "jti")) eqn:Hjti; [|done].
  cbn [andb]. destruct (Hagree payload eq_refl eq_refl Hjti) as [H12 H21].
  destruct (live_value (store w1) _ now) as [v1|];
    destruct (live_value (store w2) _ now) as [v2|];
    try done; [by specialize (H21 eq_refl)|by specialize (H12 eq_refl)].
Qed.

Lemma timegm_mono (a b : Z) : a ≤ b → timegm a ≤ timegm b.
Proof. intros. unfold timegm, second. apply Z.div_le_mono; lia. Qed.

(** Claims that are acceptable stay so when [create_access_token] has put
    its [jti] and [exp] in. *)
Lemma jose_validates_issued (data : Dict) (jti : string) (exp t : Z) :
  claims_acceptable data t = true →
  jose_validates (<["exp" := PInt exp]> (<["jti" := PStr jti]> data)) t = true.
Proof.
  unfold jose_validates, claims_acceptable. intros H.
  rewrite !(lookup_insert_ne _ "exp") by done.
  rewrite !(lookup_insert_ne _ "jti" "iat"), !(lookup_insert_ne _ "jti" "nbf"),
    !(lookup_insert_ne _ "jti" "aud"), !(lookup_insert_ne _ "jti" "sub"),
    !(lookup_insert_ne _ "jti" "at_hash") by done.
  rewrite H. by rewrite lookup_insert_eq.
Qed.

(** C2 (as amended): a token freshly issued from claims [data] that the
    token library accepts ([sub] absent or a string, no [aud], no [at_hash],
    [iat] and [nbf] absent or numbers, [nbf] not in the future) and verified
    before its expiry, while no registry entry for its [jti] is live, comes
    back as [data] extended with the generated [jti] and the computed
    [exp]. *)
Theorem token_round_trip
    (data : Dict) (expires_delta : option Z) (uuid4 : string) (now t : Z)
    (w : World) :
  jwt_round_trip jwt_encode jwt_decode
    (PRIVATE_KEY settings) (PUBLIC_KEY settings) (ALGORITHM settings) →
  claims_acceptable data t = true →
  t < access_token_expire settings expires_delta now →
  live_value (store w) (blacklist_key (PStr uuid4)) t = None →
  (verify_token jwt_decode settings
     (create_access_token jwt_encode settings data expires_delta uuid4 now)
     t w).1
  = Ok (Some (<["exp" := PInt (timegm (access_token_expire settings
                                         expires_delta now))]>
                (<["jti" := PStr uuid4]> data))).
Proof.
  intros Hlib Hok Hbefore Hfresh.
  rewrite verify_token_run. unfold create_access_token.
  rewrite (Hlib _ (timegm (access_token_expire settings expires_delta now)));
    [|by rewrite lookup_insert_eq|apply timegm_mono; lia
     |by apply jose_validates_issued].
  unfold py_get. rewrite lookup_insert_ne by done.
  rewrite lookup_insert_eq. cbn [default from_option id].
  rewrite Hfresh. rewrite bool_decide_eq_false_2 by auto.
  by rewrite !andb_false_r.
Qed.

Lemma revoke_refresh_token_run (tok : string) (now : Z) (w : World) :
  revoke_refresh_token tok now w =
  match live_value (store w) (refresh_key tok) now with
  | Some _ =>
    (Ok true,
     with_store (delete (refresh_key tok) (store w))
       (with_call (DEL (refresh_key tok)) w))
  | None => (Ok false, with_call (DEL (refresh_key tok)) w)
  end.
Proof.
  unfold revoke_refresh_token. run.
  by destruct (live_value (store w) (refresh_key tok) now).
Qed.

(** What a call of [blacklist_token] can have done. *)
Lemma blacklist_token_cases (tok : token) (now : Z) (w w' : World)
    (r : Result bool) :
  blacklist_token jwt_decode settings tok now w = (r, w') →
  (r = Ok false ∧ store w' = store w ∧ auth_users w' = auth_users w
   ∧ (calls w' = calls w
      ∨ ∃ k ttl, ttl ≤ 0 ∧ calls w' = calls w ++ [SETEX k ttl "1"]))
  ∨ (r = Ok true ∧ TOKEN_BLACKLIST_ENABLED settings = false ∧ w' = w)
  ∨ (r = Ok true ∧ TOKEN_BLACKLIST_ENABLED settings = true
     ∧ ∃ payload e,
         jwt_decode tok (PUBLIC_KEY settings) (ALGORITHM settings) now
         = Some payload
         ∧ truthy (py_get payload "jti") = true
         ∧ py_number (py_get payload "exp") = Some e
         ∧ 0 < py_int (e * second - now)
         ∧ w' = with_store
                  (<[blacklist_key (py_get payload "jti") :=
                       ("1", now + py_int (e * second - now) * second)]>
                     (store w))
                  (with_call
                     (SETEX (blacklist_key (py_get payload "jti"))
                        (py_int (e * second - now)) "1") w)).
Proof.
  unfold blacklist_token.
  destruct (TOKEN_BLACKLIST_ENABLED settings) eqn:Hen; cbn [negb].
  2:{ intros [= <- <-]. right; left. done. }
  run.
  destruct (jwt_decode tok _ _ now) as [payload|] eqn:Hdec.
  2:{ intros [= <- <-]. left. auto. }
  case_bool_decide as Hempty.
  { intros [= <- <-]. left. auto. }
  destruct (truthy (py_get payload "jti")) eqn:Hjti; cbn [negb].
  2:{ intros [= <- <-]. left. auto. }
  unfold remaining_ttl.
  destruct (py_number (py_get payload "exp")) as [e|] eqn:Hexp.
  2:{ intros [= <- <-]. left. auto. }
  run.
  destruct (Z.max (py_int (e * second - now)) 0 <=? 0) eqn:Httl.
  - intros [= <- <-]. left. repeat split; [done..|].
    right. eexists _, _. split; [|done]. lia.
  - intros [= <- <-]. right; right.
    assert (Hpos : 0 < py_int (e * second - now)) by lia.
    rewrite Z.max_l by lia.
    split; [done|]. split; [done|]. exists payload, e. done.
Qed.

(** C3: when the refresh token cannot be revoked, [logout] fails and the
    access token is never handed to the blacklist: the only command sent
    to Redis is the [DEL] of the refresh token, the store is what it was,
    and so is every answer of [is_token_blacklisted]; a [jti] with no entry
    before has none after. *)
Theorem logout_refresh_failure_leaves_blacklist
    (req : LogoutRequest) (now : Z) (w : World) :
  (revoke_refresh_token (refresh_token req) now w).1 ≠ Ok true →
  ∃ w',
    logout jwt_decode settings req now w = (Raise (HTTPException 400), w')
    ∧ store w' = store w
    ∧ calls w' = calls w ++ [DEL (refresh_key (refresh_token req))]
    ∧ (∀ payload t,
         (is_token_blacklisted settings payload t w').1
         = (is_token_blacklisted settings payload t w).1)
    ∧ (∀ jti t,
         live_value (store w) (blacklist_key jti) t = None →
         live_value (store w') (blacklist_key jti) t = None).
Proof.
  intros Hfail. unfold logout. run.
  rewrite revoke_refresh_token_run in Hfail |- *.
  destruct (live_value (store w) _ now); [by cbn in Hfail|].
  cbn [negb]. run. eexists. split; [done|].
  split; [done|]. split; [done|]. split; [|done].
  intros payload t. rewrite !is_token_blacklisted_run.
  by destruct (_ && _).
Qed.

Lemma live_value_delete (s : gmap string (string * Z)) (key : string)
    (t : Z) :
  live_value (delete key s) key t = None.
Proof. unfold live_value. by rewrite lookup_delete_eq. Qed.

Lemma verify_refresh_token_absent (tok : string) (t : Z) (w : World) :
  live_value (store w) (refresh_key tok) t = None →
  verify_refresh_token json_loads tok t w
  = (Ok PNone, with_call (GET (refresh_key tok)) w).
Proof. intros H. unfold verify_refresh_token. run. by rewrite H. Qed.

(** C4: when the refresh token is revoked and the blacklisting of the
    access token then fails, [logout] reports failure and the refresh-token
    record stays deleted: no instant finds it again. *)
Theorem logout_blacklist_failure_keeps_revocation
    (req : LogoutRequest) (now : Z) (w w1 : World) :
  revoke_refresh_token (refresh_token req) now w = (Ok true, w1) →
  (blacklist_token jwt_decode settings (access_token req) now w1).1
  ≠ Ok true →
  ∃ w',
    logout jwt_decode settings req now w = (Raise (HTTPException 400), w')
    ∧ store w' !! refresh_key (refresh_token req) = None
    ∧ (∀ t, live_value (store w') (refresh_key (refresh_token req)) t = None)
    ∧ (∀ t, (verify_refresh_token json_loads (refresh_token req) t w').1
            = Ok PNone).
Proof.
  intros Hrev Hbl. unfold logout. run. rewrite Hrev. cbn [negb].
  destruct (blacklist_token jwt_decode settings (access_token req) now w1)
    as [r w2] eqn:Hrun.
  destruct (blacklist_token_cases _ _ _ _ _ Hrun)
    as [(-> & Hst & _)|[(-> & _)|(-> & _)]]; [|done..].
  cbn [negb]. run. eexists. split; [done|].
  rewrite revoke_refresh_token_run in Hrev.
  destruct (live_value (store w) _ now); [|done].
  injection Hrev as <-.
  assert (Hgone : store w2 !! refresh_key (refresh_token req) = None).
  { rewrite Hst. cbn. apply lookup_delete_eq. }
  assert (Hdead : ∀ t,
    live_value (store w2) (refresh_key (refresh_token req)) t = None).
  { intros t. unfold live_value. by rewrite Hgone. }
  repeat split; [done..|].
  intros t. by rewrite verify_refresh_token_absent.
Qed.

(** A record that is present and is text that does not parse as JSON makes
    [verify_refresh_token] return [None] without raising; the only command
    sent is the [GET], and the record is still in the store. *)
Lemma malformed_refresh_record_is_invalid
    (tok : string) (now : Z) (w : World) (s : string) :
  live_value (store w) (refresh_key tok) now = Some s →
  json_loads s = Raise JSONDecodeError →
  ∃ w',
    verify_refresh_token json_loads tok now w = (Ok PNone, w')
    ∧ store w' = store w
    ∧ calls w' = calls w ++ [GET (refresh_key tok)]
    ∧ live_value (store w') (refresh_key tok) now = Some s.
Proof.
  intros Hlive Hbad. unfold verify_refresh_token. run.
  rewrite Hlive, Hbad. eexists.
  case_bool_decide; (split; [done|]); done.
Qed.

(** Any other exception of [json.loads] gets out of [verify_refresh_token]:
    the [except] clause names [json.JSONDecodeError] alone. *)
Lemma undecodable_refresh_record_raises
    (tok : string) (now : Z) (w : World) (s : string) (e : Exn) :
  live_value (store w) (refresh_key tok) now = Some s →
  s ≠ "" →
  json_loads s = Raise e →
  e ≠ JSONDecodeError →
  verify_refresh_token json_loads tok now w
  = (Raise e, with_call (GET (refresh_key tok)) w).
Proof.
  intros Hlive Hne Hbad He. unfold verify_refresh_token. run.
  rewrite Hlive, Hbad. rewrite bool_decide_eq_false_2 by done.
  by destruct e.
Qed.

Lemma py_int_bounds (x : Z) :
  0 < py_int x → py_int x * second ≤ x < (py_int x + 1) * second.
Proof.
  unfold py_int, second. intros H.
  Z.to_euclidean_division_equations. lia.
Qed.

(** When the clock reads a whole second, nothing is truncated. *)
Lemma py_int_whole_seconds (exp n : Z) :
  py_int (exp * second - n * second) = exp - n.
Proof.
  unfold py_int, second.
  replace (exp * 1000000 - n * 1000000) with ((exp - n) * 1000000) by lia.
  by rewrite Z.quot_mul.
Qed.

(** What the code does for the lifetime of the entry: with the blacklist
    enabled, a successful [blacklist_token] of a token that decodes to
    [payload] has sent one
    [SETEX] whose time to live is [int(exp - now)], at least one second
    and never longer than the token's remaining lifetime, but shorter than
    it by up to one second; [is_token_blacklisted] answers [True] until
    that time to live has elapsed and [False] from then on. *)
Lemma blacklist_entry_lives_for_truncated_lifetime
    (tok : token) (now : Z) (w w' : World) (payload : Dict) :
  TOKEN_BLACKLIST_ENABLED settings = true →
  jwt_decode tok (PUBLIC_KEY settings) (ALGORITHM settings) now
  = Some payload →
  blacklist_token jwt_decode settings tok now w = (Ok true, w') →
  ∃ exp ttl,
    py_number (py_get payload "exp") = Some exp
    ∧ ttl = Z.max (py_int (exp * second - now)) 0
    ∧ 0 < ttl
    ∧ now + ttl * second ≤ exp * second < now + (ttl + 1) * second
    ∧ store w'
      = <[blacklist_key (py_get payload "jti") := ("1", now + ttl * second)]>
          (store w)
    ∧ calls w'
      = calls w ++ [SETEX (blacklist_key (py_get payload "jti")) ttl "1"]
    ∧ (∀ t, t < now + ttl * second →
            (is_token_blacklisted settings payload t w').1 = Ok true)
    ∧ (∀ t, now + ttl * second ≤ t →
            (is_token_blacklisted settings payload t w').1 = Ok false).
Proof.
  intros Hen Hdec Hrun.
  destruct (blacklist_token_cases _ _ _ _ _ Hrun)
    as [([=] & _)|[(_ & Hoff & _)|(_ & _ & p & e & Hp & Hjti & He & Hpos & ->)]];
    [congruence|].
  rewrite Hdec in Hp. injection Hp as <-.
  exists e, (py_int (e * second - now)).
  pose proof (py_int_bounds _ Hpos) as Hb.
  split; [done|]. split; [lia|]. split; [done|]. split; [lia|].
  split; [done|]. split; [done|].
  split; intros t Ht; rewrite is_token_blacklisted_run, Hen, Hjti;
    cbn [andb fst store with_store with_call]; unfold live_value;
    rewrite lookup_insert_eq.
  - rewrite (proj2 (Z.ltb_lt _ _)) by lia. by rewrite bool_decide_eq_true_2.
  - rewrite (proj2 (Z.ltb_ge _ _)) by lia.
    by rewrite bool_decide_eq_false_2 by auto.
Qed.

(** C7: with the blacklist in use (the specification sets the mode in
    which it is switched off apart), for every token that decodes to a
    payload without a [jti] (missing or falsy), [blacklist_token] returns
    [False], sends nothing to Redis and leaves the world as it is; and for
    every payload without a [jti], [is_token_blacklisted] returns [False]
    and sends no command. *)
Theorem token_without_jti_is_never_revoked :
  (∀ (tok : token) (now : Z) (w : World) (payload : Dict),
     TOKEN_BLACKLIST_ENABLED settings = true →
     jwt_decode tok (PUBLIC_KEY settings) (ALGORITHM settings) now
     = Some payload →
     truthy (py_get payload "jti") = false →
     blacklist_token jwt_decode settings tok now w = (Ok false, w))
  ∧ (∀ (payload : Dict) (now : Z) (w : World),
       truthy (py_get payload "jti") = false →
       is_token_blacklisted settings payload now w = (Ok false, w)).
Proof.
  split.
  - intros tok now w payload Hen Hdec Hjti. unfold blacklist_token.
    rewrite Hen. cbn [negb].
    run. rewrite Hdec, Hjti. by case_bool_decide.
  - intros payload now w Hjti. rewrite is_token_blacklisted_run, Hjti.
    by rewrite andb_false_r.
Qed.

End SecurityProperties.

Section RegistrationProperties.
Variable get_password_hash : string → string.
Variable uuid_parse : string → option string.
Variable email_validate : string → option string.
Variable integrity_message : IntegrityConstraint → AuthUser.t → string.

Local Abbreviation create_record :=
  (create_local_record get_password_hash uuid_parse email_validate
     integrity_message).
Local Abbreviation handler :=
  (handle_user_creation_response get_password_hash uuid_parse email_validate
     integrity_message).

Lemma get_password_from_redis_run (key : Scalar) (now : Z) (w : World) :
  get_password_from_redis key now w =
  match redis_encode key with
  | Raise _ => (Ok None, w)
  | Ok k =>
    (Ok (match live_value (store w) k now with
         | Some p => if bool_decide (p = "") then None else Some p
         | None => None
         end),
     with_call (GET k) w)
  end.
Proof.
  unfold get_password_from_redis. run.
  destruct (redis_encode key) as [k|e]; [|done].
  destruct (live_value (store w) k now) as [p|]; [|done].
  by case_bool_decide.
Qed.

Lemma delete_password_from_redis_run (key : Scalar) (now : Z) (w : World) :
  delete_password_from_redis key now w =
  match redis_encode key with
  | Raise _ => (Ok false, w)
  | Ok k =>
    match live_value (store w) k now with
    | Some _ =>
      (Ok true, with_store (delete k (store w)) (with_call (DEL k) w))
    | None => (Ok false, with_call (DEL k) w)
    end
  end.
Proof.
  unfold delete_password_from_redis. run.
  destruct (redis_encode key) as [k|e]; [|done].
  by destruct (live_value (store w) k now).
Qed.

(** The record creation touches nothing but the open session. *)
Lemma create_local_record_frame (username email : Scalar)
    (password : string) (user_id : Value) (uuid4 : string)
    (w w1 : World) (r : Result AuthUser.t) :
  create_record username email password user_id uuid4 w = (r, w1) →
  store w1 = store w ∧ calls w1 = calls w ∧ auth_users w1 = auth_users w
  ∧ session_new w1
    = match r with
      | Ok row => session_new w ++ [row]
      | Raise _ => session_new w
      end.
Proof.
  unfold create_local_record, lift, create_with_user_id, session_add_flush.
  run.
  destruct (AuthUserCreate_init _ _ _ _) as [uc|e]; run.
  2:{ by intros [= <- <-]. }
  destruct (uuid_UUID _ _) as [uid|e]; run.
  2:{ by intros [= <- <-]. }
  destruct (violated _ _) as [c|]; run.
  - repeat destruct (py_in _ _); by intros [= <- <-].
  - by intros [= <- <-].
Qed.

(** The handler never lets an exception out. *)
Lemma handle_user_creation_response_returns
    (user_data : gmap string Value) (uuid4 : string) (now : Z) (w : World) :
  ∃ w', handler user_data uuid4 now w = (Ok (), w').
Proof.
  unfold handle_user_creation_response, try_except at 1.
  match goal with |- context [match ?m w with _ => _ end] =>
    destruct (m w) as [[[]|e] w'] end; run; eauto.
Qed.

(** C8: when the escrow key named by a creation-completed message is
    absent from the store, the handler returns normally, the [auth_users]
    table and the store are what they were, and Redis has seen at most the
    one [GET] of that key: nothing is created and nothing is deleted. *)
Theorem abandoned_saga_is_silent
    (user_data : gmap string Value) (uuid4 : string) (now : Z) (w : World) :
  (∀ original_request k,
     user_data !! "original_request" = Some (Obj original_request) →
     redis_encode (py_get original_request "password_key") = Ok k →
     live_value (store w) k now = None) →
  ∃ w',
    handler user_data uuid4 now w = (Ok (), w')
    ∧ auth_users w' = auth_users w
    ∧ session_new w' = session_new w
    ∧ store w' = store w
    ∧ (calls w' = calls w ∨ ∃ k, calls w' = calls w ++ [GET k]).
Proof.
  intros Habsent. unfold handle_user_creation_response. run.
  destruct (truthy_value _); cbn [negb]; [|by eauto 10].
  destruct (user_data !! "original_request") as [[a|d]|] eqn:Horig;
    cbn [default from_option id]; run; [by eauto 10| |].
  - destruct (truthy (py_get d "username")); cbn [negb orb]; [|by eauto 10].
    destruct (truthy (py_get d "email")); cbn [negb orb]; [|by eauto 10].
    destruct (truthy (py_get d "password_key")); cbn [negb orb];
      [|by eauto 10].
    rewrite get_password_from_redis_run.
    destruct (redis_encode (py_get d "password_key")) as [k|e] eqn:Hk;
      [|by eauto 10].
    rewrite (Habsent d k eq_refl Hk). eexists. split; [done|].
    cbn. eauto 10.
  - unfold py_get. rewrite !lookup_empty. cbn. eauto 10.
Qed.

(** C9: take a creation-completed message that names an escrow key under
    which a password is present.  If creating the local credential record
    raises, the handler returns with the store untouched (the escrow entry
    is still there), no [DEL] sent and no row added.  If it succeeds, the
    row is committed and the escrow entry is deleted, the [DEL] following
    the creation. *)
Theorem finalize_deletes_escrow_only_after_creation
    (user_data : gmap string Value) (original_request : Dict)
    (uuid4 : string) (now : Z) (w : World) (k password : string) :
  let user_id := default (Atom PNone) (user_data !! "id") in
  let username := py_get original_request "username" in
  let email := py_get original_request "email" in
  let password_key := py_get original_request "password_key" in
  let w0 := mkWorld (store w) (calls w ++ [GET k]) (auth_users w) [] in
  truthy_value user_id = true →
  user_data !! "original_request" = Some (Obj original_request) →
  truthy username = true →
  truthy email = true →
  truthy password_key = true →
  redis_encode password_key = Ok k →
  live_value (store w) k now = Some password →
  password ≠ "" →
  (∀ e w1,
     create_record username email password user_id uuid4 w0 = (Raise e, w1) →
     ∃ w',
       handler user_data uuid4 now w = (Ok (), w')
       ∧ store w' = store w
       ∧ live_value (store w') k now = Some password
       ∧ calls w' = calls w ++ [GET k]
       ∧ auth_users w' = auth_users w)
  ∧ (∀ row w1,
       create_record username email password user_id uuid4 w0 = (Ok row, w1) →
       ∃ w',
         handler user_data uuid4 now w = (Ok (), w')
         ∧ store w' = delete k (store w)
         ∧ (∀ t, live_value (store w') k t = None)
         ∧ calls w' = calls w ++ [GET k; DEL k]
         ∧ auth_users w' = auth_users w ++ [row]).
Proof.
  intros user_id username email password_key w0
    Hid Horig Hu He Hpk Hk Hlive Hne.
  assert (Hhead :
    handler user_data uuid4 now w
    = match for_async_session
              (try_except
                 (create_record username email password user_id uuid4 ;;
                  delete_password_from_redis password_key now ;;
                  mret ())
                 (λ e, session_rollback ;; raise e))
              (with_call (GET k) w) with
      | (Ok a, w') => (Ok a, w')
      | (Raise _, w') => (Ok (), w')
      end).
  { unfold handle_user_creation_response.
    unfold try_except at 1. unfold mbind at 1, M_bind at 1.
    fold user_id. rewrite Hid. cbn [negb].
    unfold mbind at 1, M_bind at 1. rewrite Horig.
    cbn [default from_option id]. unfold mret at 1, M_ret at 1.
    fold username email password_key. rewrite Hu, He, Hpk. cbn [negb orb].
    unfold mbind at 1, M_bind at 1.
    rewrite get_password_from_redis_run, Hk, Hlive.
    rewrite bool_decide_eq_false_2 by done.
    rewrite bool_decide_eq_false_2 by done. done. }
  rewrite Hhead. clear Hhead.
  unfold for_async_session, session_rollback, session_commit. run.
  change (mkWorld (store w) (calls w ++ [GET k]) (auth_users w) [])
    with w0.
  split.
  - intros e w1 Hrun. rewrite Hrun.
    destruct (create_local_record_frame _ _ _ _ _ _ _ _ Hrun)
      as (Hs & Hc & Ha & _).
    run. eexists. split; [done|]. cbn. rewrite Hs, Hc, Ha. done.
  - intros row w1 Hrun. rewrite Hrun.
    destruct (create_local_record_frame _ _ _ _ _ _ _ _ Hrun)
      as (Hs & Hc & Ha & Hn).
    rewrite delete_password_from_redis_run, Hk, Hs. cbn [store w0].
    rewrite Hlive. run. eexists. split; [done|]. cbn.
    rewrite ?Hs, Hc, Ha, Hn. cbn. rewrite <- app_assoc.
    split; [done|]. split; [|done].
    intros t. apply live_value_delete.
Qed.

End RegistrationProperties.

(** ** Keys that stay absent *)

Section Absence.
Context {A B : Type}.
Variable key : string.

Lemma keeps_absent_ret (a : A) : keeps_absent key (mret a).
Proof. by intros w r w' [= <- <-]. Qed.

Lemma keeps_absent_raise (e : Exn) : keeps_absent key (raise (A := A) e).
Proof. by intros w r w' [= <- <-]. Qed.

Lemma keeps_absent_bind (m : M A) (f : A → M B) :
  keeps_absent key m → (∀ a, keeps_absent key (f a)) →
  keeps_absent key (m ≫= f).
Proof.
  intros Hm Hf w r w' Hrun Hw. unfold mbind, M_bind in Hrun.
  destruct (m w) as [[a|e] w1] eqn:Hmw.
  - eapply Hf; [exact Hrun|]. eapply Hm; [exact Hmw|exact Hw].
  - injection Hrun as <- <-. eapply Hm; [exact Hmw|exact Hw].
Qed.

Lemma keeps_absent_try_except (m : M A) (h : Exn → M A) :
  keeps_absent key m → (∀ e, keeps_absent key (h e)) →
  keeps_absent key (try_except m h).
Proof.
  intros Hm Hh w r w' Hrun Hw. unfold try_except in Hrun.
  destruct (m w) as [[a|e] w1] eqn:Hmw.
  - injection Hrun as <- <-. eapply Hm; [exact Hmw|exact Hw].
  - eapply Hh; [exact Hrun|]. eapply Hm; [exact Hmw|exact Hw].
Qed.

End Absence.

Lemma keeps_absent_get (key k : string) (now : Z) :
  keeps_absent key (redis_get k now).
Proof. by intros w r w' [= <- <-]. Qed.

Lemma keeps_absent_delete (key k : string) (now : Z) :
  keeps_absent key (redis_delete k now).
Proof.
  intros w r w' Hrun Hw. unfold redis_delete in Hrun.
  destruct (live_value (store w) k now); injection Hrun as <- <-; [|done].
  cbn. rewrite lookup_delete. by case_decide.
Qed.

Lemma keeps_absent_setex (key k v : string) (ttl now : Z) :
  k ≠ key → keeps_absent key (redis_setex k ttl v now).
Proof.
  intros Hne w r w' Hrun Hw. unfold redis_setex in Hrun.
  destruct (ttl <=? 0); injection Hrun as <- <-; [done|].
  cbn. by rewrite lookup_insert_ne.
Qed.

Lemma keeps_absent_session (key : string) (m : M unit) :
  (∀ w, store (m w).2 = store w) → keeps_absent key m.
Proof.
  intros Hm w r w' Hrun Hw. specialize (Hm w). rewrite Hrun in Hm.
  cbn in Hm. by rewrite Hm.
Qed.

Create HintDb keeps discriminated.

(** Applies the lemmas above along the structure of a coroutine; the lemmas
    about whole coroutines are taken from the hint database. *)
Ltac keeps :=
  repeat first
    [ solve [auto 1 with keeps nocore]
    | apply keeps_absent_ret
    | apply keeps_absent_raise
    | apply keeps_absent_get
    | apply keeps_absent_delete
    | apply keeps_absent_bind; [|intros ?]
    | apply keeps_absent_try_except; [|intros ?]
    | match goal with
      | |- keeps_absent _ (match ?x with _ => _ end) => destruct x
      end ].

Section ServiceProperties.
Context {token : Type}.
Variable jwt_decode : token → string → string → Z → option Dict.
Variable json_dumps : Dict → string.
Variable json_loads : string → Result Value.
Variable settings : Settings.
Variable get_password_hash : string → string.
Variable uuid_parse : string → option string.
Variable email_validate : string → option string.
Variable integrity_message : IntegrityConstraint → AuthUser.t → string.

Local Abbreviation replay :=
  (run_calls jwt_decode json_dumps json_loads settings get_password_hash
     uuid_parse email_validate integrity_message).

Lemma refresh_key_inj (a b : string) : refresh_key a = refresh_key b → a = b.
Proof. unfold refresh_key. apply (inj (String.app _)). Qed.

Lemma keeps_absent_revoke_refresh_token (key tok : string) (now : Z) :
  keeps_absent key (revoke_refresh_token tok now).
Proof. unfold revoke_refresh_token. keeps. Qed.

Lemma keeps_absent_verify_refresh_token (key tok : string) (now : Z) :
  keeps_absent key (verify_refresh_token json_loads tok now).
Proof.
  unfold verify_refresh_token. keeps.
Qed.

Lemma keeps_absent_create_refresh_token (tok u tok' : string) (now : Z) :
  tok' ≠ tok →
  keeps_absent (refresh_key tok)
    (create_refresh_token json_dumps settings u tok' now).
Proof.
  intros Hne. unfold create_refresh_token. cbv zeta. keeps.
  apply keeps_absent_setex. intros Heq. by apply Hne, refresh_key_inj.
Qed.

Lemma keeps_absent_blacklist_token (tok : string) (t : token) (now : Z) :
  keeps_absent (refresh_key tok) (blacklist_token jwt_decode settings t now).
Proof.
  unfold blacklist_token. cbv zeta. keeps.
  apply keeps_absent_setex. unfold blacklist_key, refresh_key.
  intros Heq. discriminate Heq.
Qed.

Lemma keeps_absent_verify_token (key : string) (t : token) (now : Z) :
  keeps_absent key (verify_token jwt_decode settings t now).
Proof. unfold verify_token, is_token_blacklisted. cbv zeta. keeps. Qed.

Lemma keeps_absent_logout (tok : string) (req : LogoutRequest) (now : Z) :
  keeps_absent (refresh_key tok) (logout jwt_decode settings req now).
Proof.
  unfold logout, logout_except. keeps.
  apply keeps_absent_blacklist_token.
Qed.

Lemma keeps_absent_save_password (tok u p : string) (ttl now : Z) :
  keeps_absent (refresh_key tok) (save_password_to_redis u p ttl now).
Proof.
  unfold save_password_to_redis. cbv zeta. keeps.
  apply keeps_absent_setex. unfold refresh_key.
  intros Heq. discriminate Heq.
Qed.

Lemma keeps_absent_get_password (key : string) (k : Scalar) (now : Z) :
  keeps_absent key (get_password_from_redis k now).
Proof. unfold get_password_from_redis. keeps. Qed.

Lemma keeps_absent_delete_password (key : string) (k : Scalar) (now : Z) :
  keeps_absent key (delete_password_from_redis k now).
Proof. unfold delete_password_from_redis. keeps. Qed.

Lemma keeps_absent_create_local_record (key : string)
    (username email : Scalar) (password : string) (user_id : Value)
    (uuid4 : string) :
  keeps_absent key
    (create_local_record get_password_hash uuid_parse email_validate
       integrity_message username email password user_id uuid4).
Proof.
  intros w r w' Hrun Hw.
  destruct (create_local_record_frame _ _ _ _ _ _ _ _ _ _ _ _ Hrun)
    as (Hs & _).
  by rewrite Hs.
Qed.

#[local] Hint Resolve keeps_absent_create_local_record
  keeps_absent_get_password keeps_absent_delete_password : keeps.

Lemma keeps_absent_handler (key : string) (d : gmap string Value)
    (u : string) (now : Z) :
  keeps_absent key
    (handle_user_creation_response get_password_hash uuid_parse
       email_validate integrity_message d u now).
Proof.
  unfold handle_user_creation_response, for_async_session. cbv zeta.
  keeps; by apply keeps_absent_session.
Qed.

Lemma run_call_keeps_absent (tok : string) (c : Call) (now : Z) (w : World) :
  ¬ issues tok c →
  store w !! refresh_key tok = None →
  store (run_call jwt_decode json_dumps json_loads settings get_password_hash
           uuid_parse email_validate integrity_message c now w)
  !! refresh_key tok = None.
Proof.
  intros Hc Hw.
  destruct c; cbn [run_call];
    match goal with |- store (?m w).2 !! _ = None =>
      cut (keeps_absent (refresh_key tok) m);
        [intros Hk; destruct (m w) as [r w'] eqn:Hrun; exact (Hk _ _ _ Hrun Hw)|]
    end.
  - apply keeps_absent_create_refresh_token. exact Hc.
  - apply keeps_absent_verify_refresh_token.
  - apply keeps_absent_revoke_refresh_token.
  - apply keeps_absent_blacklist_token.
  - apply keeps_absent_verify_token.
  - apply keeps_absent_logout.
  - apply keeps_absent_save_password.
  - apply keeps_absent_get_password.
  - apply keeps_absent_delete_password.
  - apply keeps_absent_handler.
Qed.

(** C5: once [revoke_refresh_token] has returned [True] for a token, the
    store holds no record for it, and it stays so through every sequence of
    later calls that does not issue the same token value again: after any
    such sequence [verify_refresh_token] returns [None], at every
    instant. *)
Theorem revoked_refresh_token_is_invalid
    (tok : string) (now : Z) (w w1 : World) (later : list (Call * Z)) :
  revoke_refresh_token tok now w = (Ok true, w1) →
  Forall (λ c, ¬ issues tok c.1) later →
  ∀ t,
    verify_refresh_token json_loads tok t (replay later w1)
    = (Ok PNone, with_call (GET (refresh_key tok)) (replay later w1)).
Proof.
  intros Hrev Hlater t.
  apply verify_refresh_token_absent. unfold live_value.
  cut (store (replay later w1) !! refresh_key tok = None);
    [by intros ->|].
  assert (Hgone : store w1 !! refresh_key tok = None).
  { rewrite revoke_refresh_token_run in Hrev.
    destruct (live_value (store w) _ now); [|done].
    injection Hrev as <-. apply lookup_delete_eq. }
  clear Hrev. revert w1 Hgone.
  induction Hlater as [|[c t'] later Hc _ IH]; intros w1 Hgone; [done|].
  cbn [run_calls]. apply IH. by apply run_call_keeps_absent.
Qed.

End ServiceProperties.

(** * The properties on concrete runs *)

Lemma sym_round_trip (key algorithm : string) :
  jwt_round_trip sym_encode sym_decode key key algorithm.
Proof.
  intros claims exp t Hexp Ht Hok. unfold sym_decode, sym_encode.
  cbn [fst snd].
  rewrite bool_decide_eq_true_2 by done. rewrite Hok, Hexp. cbn [py_number].
  by rewrite (proj2 (Z.ltb_ge _ _)) by done.
Qed.

(** C1, counterexample: the same token at the same instant is accepted in a
    registry without an entry for its [jti] and rejected in the registry that
    [blacklist_token] leaves behind. *)
Lemma verify_token_consults_blacklist :
  let now := 100 * second in
  let clean := empty_world in
  let revoked :=
    (blacklist_token sym_decode (demo_settings true) demo_token now clean).2 in
  (verify_token sym_decode (demo_settings true) demo_token now clean).1
  = Ok (Some demo_payload)
  ∧ (verify_token sym_decode (demo_settings true) demo_token now revoked).1
    = Ok None.
Proof. vm_compute. split; reflexivity. Qed.

(** Two registries that differ (one holds a refresh token and the entry of
    another [jti]) and agree on the entry of [jti-1]. *)
Lemma verify_token_reads_own_entry_only_witness :
  let other :=
    mkWorld {[ "refresh_token:r-1" := ("{}", 1000 * second);
               "blacklist_token:jti-2" := ("1", 500 * second) ]} [] [] [] in
  store other ≠ store empty_world
  ∧ (verify_token sym_decode (demo_settings true) demo_token (100 * second)
       empty_world).1
    = (verify_token sym_decode (demo_settings true) demo_token (100 * second)
         other).1.
Proof.
  intros other. split; [by vm_compute|].
  apply (verify_token_reads_own_entry_only sym_decode (demo_settings true)
           demo_token (100 * second) empty_world other).
  intros payload Hdec Hen Hjti. vm_compute in Hdec. injection Hdec as <-.
  vm_compute. tauto.
Defined.

(** C2, counterexample: claims with an integer subject.  The token is
    issued, and the library, which wants a subject to be a string, refuses
    it a second later: [verify_token] returns [None]. *)
Lemma integer_subject_does_not_round_trip :
  let data : Dict := {[ "sub" := PInt 1 ]} in
  let issued := 100 * second in
  let checked := 101 * second in
  checked < access_token_expire (demo_settings true) None issued
  ∧ live_value (store empty_world) (blacklist_key (PStr "jti-1")) checked
    = None
  ∧ (verify_token sym_decode (demo_settings true)
       (create_access_token sym_encode (demo_settings true) data None "jti-1"
          issued)
       checked empty_world).1
    = Ok None.
Proof. by vm_compute. Qed.

Lemma token_round_trip_witness :
  let data : Dict := {[ "sub" := PStr "u1"; "username" := PStr "alice" ]} in
  let issued := 100 * second in
  let checked := 101 * second in
  (verify_token sym_decode (demo_settings true)
     (create_access_token sym_encode (demo_settings true) data
        (Some (minutes 30)) "jti-1" issued)
     checked empty_world).1
  = Ok (Some (<["exp" := PInt 1900]> (<["jti" := PStr "jti-1"]> data))).
Proof.
  intros data issued checked.
  apply (token_round_trip sym_encode sym_decode (demo_settings true) data
           (Some (minutes 30)) "jti-1" issued checked empty_world).
  - apply sym_round_trip.
  - by vm_compute.
  - by vm_compute.
  - by vm_compute.
Defined.

Lemma logout_refresh_failure_witness :
  let req := mkLogoutRequest "r-unknown" demo_token in
  ∃ w',
    logout sym_decode (demo_settings true) req (100 * second) empty_world
    = (Raise (HTTPException 400), w')
    ∧ store w' = ∅
    ∧ calls w' = [DEL "refresh_token:r-unknown"].
Proof.
  intros req.
  destruct (logout_refresh_failure_leaves_blacklist sym_decode
              (demo_settings true) req (100 * second) empty_world)
    as (w' & Hrun & Hstore & Hcalls & _).
  - by vm_compute.
  - exists w'. split; [exact Hrun|]. split; [exact Hstore|exact Hcalls].
Defined.

(** The refresh token is there, the access token is signed by another key. *)
Lemma logout_blacklist_failure_witness :
  let forged : Dict * string := sym_encode demo_payload "key-2" "RS256" in
  let req := mkLogoutRequest "r-1" forged in
  ∃ w',
    logout sym_decode (demo_settings true) req (100 * second) refresh_world
    = (Raise (HTTPException 400), w')
    ∧ store w' !! "refresh_token:r-1" = None.
Proof.
  intros forged req.
  destruct (logout_blacklist_failure_keeps_revocation sym_decode sym_json_loads
              (demo_settings true) req (100 * second) refresh_world
              (revoke_refresh_token "r-1" (100 * second) refresh_world).2)
    as (w' & Hrun & Hgone & _).
  - by vm_compute.
  - by vm_compute.
  - exists w'. split; [exact Hrun|exact Hgone].
Defined.

(** The token [r-1] is revoked; another token is issued, a logout and a
    registration completion are served; [r-1] is still refused. *)
Lemma revoked_refresh_token_is_invalid_witness :
  let w1 := (revoke_refresh_token "r-1" (100 * second) refresh_world).2 in
  let later : list (Call * Z) :=
    [ (CreateRefreshToken "u1" "r-2", 150 * second);
      (Logout (mkLogoutRequest "r-2" demo_token), 160 * second);
      (CreationCompleted bob_completed "id-1", 170 * second);
      (VerifyRefreshToken "r-1", 180 * second) ] in
  (verify_refresh_token sym_json_loads "r-1" (200 * second)
     (run_calls sym_decode sym_json_dumps sym_json_loads (demo_settings true)
        sym_hash sym_uuid_parse sym_email_validate sym_integrity_message
        later w1)).1
  = Ok PNone.
Proof.
  intros w1 later.
  rewrite (revoked_refresh_token_is_invalid sym_decode sym_json_dumps
             sym_json_loads (demo_settings true) sym_hash sym_uuid_parse
             sym_email_validate sym_integrity_message "r-1" (100 * second)
             refresh_world w1 later).
  - reflexivity.
  - by vm_compute.
  - repeat constructor; by vm_compute.
Defined.

(** C6: the code at the failing input.  The token expires at second 110
    and is revoked at second 100.5; [int(exp - now)] drops the half second,
    the entry is written for 9 seconds, and at second 109.7, before the
    token's expiry, [is_token_blacklisted] answers [False] and
    [verify_token] returns the payload again: the revocation ends before the
    token does. *)
Lemma revocation_lapses_before_token_expiry :
  let now := 100500000 in
  let t := 109700000 in
  let run :=
    blacklist_token sym_decode (demo_settings true) demo_token now empty_world in
  run.1 = Ok true
  ∧ calls run.2 = [SETEX "blacklist_token:jti-1" 9 "1"]
  ∧ now ≤ t < 110 * second
  ∧ (is_token_blacklisted (demo_settings true) demo_payload t run.2).1
    = Ok false
  ∧ (verify_token sym_decode (demo_settings true) demo_token t run.2).1
    = Ok (Some demo_payload).
Proof. vm_compute. repeat split; congruence. Qed.

Lemma blacklist_entry_lives_for_truncated_lifetime_witness :
  let now := 100500000 in
  let run :=
    blacklist_token sym_decode (demo_settings true) demo_token now empty_world in
  ∃ exp ttl,
    exp = 110 ∧ ttl = 9
    ∧ store run.2 = {[ "blacklist_token:jti-1" := ("1", now + ttl * second) ]}
    ∧ (∀ t, t < now + ttl * second →
            (is_token_blacklisted (demo_settings true) demo_payload t run.2).1
            = Ok true)
    ∧ (∀ t, now + ttl * second ≤ t →
            (is_token_blacklisted (demo_settings true) demo_payload t run.2).1
            = Ok false).
Proof.
  intros now run.
  destruct (blacklist_entry_lives_for_truncated_lifetime sym_decode
              (demo_settings true) demo_token now empty_world run.2
              demo_payload)
    as (exp & ttl & Hexp & Httl & _ & _ & Hstore & _ & Hlive & Hdead).
  - reflexivity.
  - by vm_compute.
  - by vm_compute.
  - vm_compute in Hexp. injection Hexp as <-.
    vm_compute in Httl. subst ttl.
    exists 110, 9. split; [done|]. split; [done|].
    split; [exact Hstore|]. split; [exact Hlive|exact Hdead].
Defined.

(** The mode that the specification sets apart: with the blacklist switched
    off, [blacklist_token] reports success before it looks at the token. *)
Lemma jti_less_revoke_succeeds_when_disabled :
  sym_decode legacy_token "key-1" "RS256" (100 * second) = Some legacy_payload
  ∧ legacy_payload !! "jti" = None
  ∧ blacklist_token sym_decode (demo_settings false) legacy_token
      (100 * second) empty_world
    = (Ok true, empty_world).
Proof. by vm_compute. Qed.

Lemma token_without_jti_is_never_revoked_witness :
  blacklist_token sym_decode (demo_settings true) legacy_token (100 * second)
    empty_world
  = (Ok false, empty_world)
  ∧ is_token_blacklisted (demo_settings true) legacy_payload (100 * second)
      empty_world
    = (Ok false, empty_world).
Proof.
  split.
  - apply (proj1 (token_without_jti_is_never_revoked sym_decode
                    (demo_settings true))
             legacy_token (100 * second) empty_world legacy_payload);
      [reflexivity|by vm_compute..].
  - apply (proj2 (token_without_jti_is_never_revoked sym_decode
                    (demo_settings true))).
    by vm_compute.
Defined.

(** C10: the code at the failing input.  The record of [r-1] is the byte
    [0xff]; [json.loads] raises [UnicodeDecodeError], which the clause
    [except json.JSONDecodeError] does not catch, so [verify_refresh_token]
    raises instead of returning [None].  The record is left in place. *)
Lemma refresh_record_that_is_not_text_raises :
  live_value (store garbled_world) (refresh_key "r-1") (100 * second)
  = Some not_text
  ∧ verify_refresh_token sym_json_loads "r-1" (100 * second) garbled_world
    = (Raise UnicodeDecodeError,
       with_call (GET "refresh_token:r-1") garbled_world).
Proof. by vm_compute. Qed.

Lemma undecodable_refresh_record_raises_witness :
  verify_refresh_token sym_json_loads "r-1" (100 * second) garbled_world
  = (Raise UnicodeDecodeError,
     with_call (GET (refresh_key "r-1")) garbled_world).
Proof.
  apply (undecodable_refresh_record_raises sym_json_loads "r-1"
           (100 * second) garbled_world not_text UnicodeDecodeError);
    by vm_compute.
Defined.

Lemma malformed_refresh_record_is_invalid_witness :
  ∃ w',
    verify_refresh_token sym_json_loads "r-1" (100 * second) refresh_world
    = (Ok PNone, w')
    ∧ store w' = store refresh_world
    ∧ calls w' = [GET "refresh_token:r-1"].
Proof.
  destruct (malformed_refresh_record_is_invalid sym_json_loads "r-1"
              (100 * second) refresh_world "not json")
    as (w' & Hrun & Hstore & Hcalls & _).
  - by vm_compute.
  - by vm_compute.
  - exists w'. split; [exact Hrun|]. split; [exact Hstore|exact Hcalls].
Defined.

(** The completion of [bob]'s registration arrives at second 500, after the
    escrow entry (written for 300 seconds at second 100) has lapsed. *)
Lemma abandoned_saga_is_silent_witness :
  ∃ w',
    handle_user_creation_response sym_hash sym_uuid_parse sym_email_validate
      sym_integrity_message
      bob_completed "id-1" (500 * second) (escrow_world [])
    = (Ok (), w')
    ∧ auth_users w' = []
    ∧ store w' = store (escrow_world []).
Proof.
  destruct (abandoned_saga_is_silent sym_hash sym_uuid_parse sym_email_validate
    sym_integrity_message
              bob_completed "id-1" (500 * second) (escrow_world []))
    as (w' & Hrun & Husers & _ & Hstore & _).
  - intros original_request k Hreq Hk.
    vm_compute in Hreq. injection Hreq as <-.
    vm_compute in Hk. injection Hk as <-. by vm_compute.
  - exists w'. split; [exact Hrun|]. split; [exact Husers|exact Hstore].
Defined.

(** The completion arrives in time: with [bob] already in the table the
    creation fails and the escrow stays; with an empty table the row is
    committed and the escrow is gone. *)
Lemma finalize_deletes_escrow_only_after_creation_witness :
  (∃ w',
     handle_user_creation_response sym_hash sym_uuid_parse sym_email_validate
       sym_integrity_message
       bob_completed "id-2" (200 * second) (escrow_world [bob_row])
     = (Ok (), w')
     ∧ store w' = store (escrow_world [bob_row])
     ∧ calls w' = [GET "temp_password:bob:100"]
     ∧ auth_users w' = [bob_row])
  ∧ (∃ w',
       handle_user_creation_response sym_hash sym_uuid_parse sym_email_validate
         sym_integrity_message
         bob_completed "id-1" (200 * second) (escrow_world [])
       = (Ok (), w')
       ∧ store w' = ∅
       ∧ calls w' = [GET "temp_password:bob:100"; DEL "temp_password:bob:100"]
       ∧ auth_users w' = [bob_row]).
Proof.
  split.
  - destruct (proj1 (finalize_deletes_escrow_only_after_creation sym_hash
                       sym_uuid_parse sym_email_validate
                       sym_integrity_message bob_completed
                       bob_request "id-2" (200 * second)
                       (escrow_world [bob_row]) "temp_password:bob:100" "p@ss"
                       eq_refl eq_refl eq_refl eq_refl eq_refl eq_refl eq_refl
                       ltac:(done))
                DuplicateUsernameError
                (mkWorld (store (escrow_world [bob_row]))
                   [GET "temp_password:bob:100"] [bob_row] []))
      as (w' & Hrun & Hstore & _ & Hcalls & Husers).
    + by vm_compute.
    + exists w'. split; [exact Hrun|]. split; [exact Hstore|].
      split; [exact Hcalls|exact Husers].
  - destruct (proj2 (finalize_deletes_escrow_only_after_creation sym_hash
                       sym_uuid_parse sym_email_validate
                       sym_integrity_message bob_completed
                       bob_request "id-1" (200 * second)
                       (escrow_world []) "temp_password:bob:100" "p@ss"
                       eq_refl eq_refl eq_refl eq_refl eq_refl eq_refl eq_refl
                       ltac:(done))
                bob_row
                (mkWorld (store (escrow_world []))
                   [GET "temp_password:bob:100"] [] [bob_row]))
      as (w' & Hrun & Hstore & _ & Hcalls & Husers).
    + by vm_compute.
    + exists w'. split; [exact Hrun|]. split; [|split; [exact Hcalls|exact Husers]].
      rewrite Hstore. by vm_compute.
Defined.

(** * Further properties *)

Lemma py_int_below_one_second (x : Z) : x < second → Z.max (py_int x) 0 = 0.
Proof.
  unfold py_int, second. intros H. Z.to_euclidean_division_equations. lia.
Qed.

Lemma py_int_from_one_second (x : Z) : second ≤ x → 0 < py_int x.
Proof.
  unfold py_int, second. intros H. Z.to_euclidean_division_equations. lia.
Qed.

(** ** Refresh tokens *)

Section RefreshTokenProperties.
Variable json_dumps : Dict → string.
Variable json_loads : string → Result Value.
Variable settings : Settings.

Local Abbreviation expiry_seconds :=
  (REFRESH_TOKEN_EXPIRE_DAYS settings * 24 * 60 * 60).

(** The record that [create_refresh_token] writes at [now]. *)
Local Abbreviation record_of auth_user_id now :=
  ({[ "auth_user_id" := PStr auth_user_id;
      "expires_at" := PInt (py_int (now + expiry_seconds * second)) ]} : Dict).

Lemma create_refresh_token_run (auth_user_id tok : string) (now : Z)
    (w : World) :
  0 < REFRESH_TOKEN_EXPIRE_DAYS settings →
  create_refresh_token json_dumps settings auth_user_id tok now w
  = (Ok tok,
     mkWorld
       (<[refresh_key tok :=
            (json_dumps (record_of auth_user_id now),
             now + expiry_seconds * second)]> (store w))
       (calls w
        ++ [SETEX (refresh_key tok) expiry_seconds
              (json_dumps (record_of auth_user_id now))])
       (auth_users w) (session_new w)).
Proof.
  intros Hdays. unfold create_refresh_token. run.
  by rewrite (proj2 (Z.leb_gt _ _)) by lia.
Qed.

(** The result of [verify_refresh_token] is read off the one live value. *)
Lemma verify_refresh_token_result (tok : string) (t : Z) (w1 w2 : World) :
  live_value (store w1) (refresh_key tok) t
  = live_value (store w2) (refresh_key tok) t →
  (verify_refresh_token json_loads tok t w1).1
  = (verify_refresh_token json_loads tok t w2).1.
Proof.
  intros Hsame. unfold verify_refresh_token. run. rewrite Hsame.
  destruct (live_value (store w2) _ t) as [s|]; [|done].
  case_bool_decide; [done|].
  destruct (json_loads s) as [[a|d]|e]; try done; [|by destruct e].
  destruct (py_number _) as [e|]; [|done].
  destruct (e * second <? t); [|done].
  unfold revoke_refresh_token. run.
  by destruct (live_value _ _ t); destruct (live_value _ _ t).
Qed.

(** X1: a refresh token issued for a user verifies to that user's id at any
    later instant at which the store still holds it and the second written
    into the record has not passed; verifying leaves the record in place. *)
Theorem issued_refresh_token_verifies
    (auth_user_id tok : string) (now t : Z) (w : World) :
  0 < REFRESH_TOKEN_EXPIRE_DAYS settings →
  json_round_trip_on json_dumps json_loads (record_of auth_user_id now) →
  t < now + expiry_seconds * second →
  t ≤ py_int (now + expiry_seconds * second) * second →
  ∃ w1 w2,
    create_refresh_token json_dumps settings auth_user_id tok now w
    = (Ok tok, w1)
    ∧ verify_refresh_token json_loads tok t w1 = (Ok (PStr auth_user_id), w2)
    ∧ store w2 = store w1.
Proof.
  intros Hdays [Hne Hjson] Hlive Hfresh.
  rewrite create_refresh_token_run by done.
  eexists _, _. split; [done|].
  unfold verify_refresh_token. run. unfold live_value.
  rewrite lookup_insert_eq. rewrite (proj2 (Z.ltb_lt _ _)) by done.
  rewrite bool_decide_eq_false_2 by done. rewrite Hjson.
  rewrite lookup_insert_ne by done. rewrite lookup_singleton_eq.
  cbn [default from_option id py_number].
  rewrite (proj2 (Z.ltb_ge _ _)) by done.
  unfold py_get. rewrite lookup_insert_eq. done.
Qed.

(** X2: a record that is still in the store but whose written second has
    passed makes [verify_refresh_token] delete the record and raise
    [JWTError]; it sends the [GET] and then the [DEL]. *)
Theorem expired_refresh_record_is_deleted
    (tok : string) (now : Z) (w : World) (s : string) (d : Dict) (e : Z) :
  live_value (store w) (refresh_key tok) now = Some s →
  s ≠ "" →
  json_loads s = Ok (Obj d) →
  py_number (default (PInt 0) (d !! "expires_at")) = Some e →
  e * second < now →
  ∃ w',
    verify_refresh_token json_loads tok now w = (Raise JWTError, w')
    ∧ store w' = delete (refresh_key tok) (store w)
    ∧ calls w' = calls w ++ [GET (refresh_key tok); DEL (refresh_key tok)]
    ∧ ∀ t, (verify_refresh_token json_loads tok t w').1 = Ok PNone.
Proof.
  intros Hlive Hne Hjson He Hpast. unfold verify_refresh_token at 1. run.
  rewrite Hlive. rewrite bool_decide_eq_false_2 by done.
  rewrite Hjson, He. rewrite (proj2 (Z.ltb_lt _ _)) by done.
  unfold revoke_refresh_token. run. rewrite Hlive. run.
  eexists. split; [done|]. cbn. rewrite <- app_assoc.
  split; [done|]. split; [done|].
  intros t. rewrite verify_refresh_token_absent; [done|].
  apply live_value_delete.
Qed.

(** X3: when the clock had a fractional part at issuance, the record is
    written with its second rounded down; between that second and the lapse
    of the store entry the token is refused as expired and its record
    deleted. *)
Theorem issued_refresh_token_expires_at_written_second
    (auth_user_id tok : string) (now t : Z) (w : World) :
  0 < REFRESH_TOKEN_EXPIRE_DAYS settings →
  json_round_trip_on json_dumps json_loads (record_of auth_user_id now) →
  py_int (now + expiry_seconds * second) * second < t →
  t < now + expiry_seconds * second →
  ∃ w1 w2,
    create_refresh_token json_dumps settings auth_user_id tok now w
    = (Ok tok, w1)
    ∧ verify_refresh_token json_loads tok t w1 = (Raise JWTError, w2)
    ∧ store w2 !! refresh_key tok = None.
Proof.
  intros Hdays [Hne Hjson] Hpast Hlive.
  rewrite create_refresh_token_run by done.
  match goal with |- context [(Ok tok, ?x)] => set (w1 := x) end.
  destruct (expired_refresh_record_is_deleted tok t w1
              (json_dumps (record_of auth_user_id now))
              (record_of auth_user_id now)
              (py_int (now + expiry_seconds * second)))
    as (w' & Hrun & Hs & _); [|done|done| |done|].
  - cbn [store w1]. unfold live_value. rewrite lookup_insert_eq.
    by rewrite (proj2 (Z.ltb_lt _ _)) by done.
  - rewrite lookup_insert_ne by done. by rewrite lookup_singleton_eq.
  - exists w1, w'. split; [done|]. split; [done|].
    rewrite Hs. apply lookup_delete_eq.
Qed.

(** X4: [revoke_refresh_token] answers whether the record was there; from
    then on the token has no record, and every other refresh token verifies
    exactly as before. *)
Theorem revoke_refresh_token_is_local
    (tok other : string) (now : Z) (w : World) :
  other ≠ tok →
  ∃ w',
    revoke_refresh_token tok now w
    = (Ok (bool_decide
             (is_Some (live_value (store w) (refresh_key tok) now))), w')
    ∧ (∀ t, now ≤ t → live_value (store w') (refresh_key tok) t = None)
    ∧ (∀ t, (verify_refresh_token json_loads other t w').1
            = (verify_refresh_token json_loads other t w).1).
Proof.
  intros Hother. rewrite revoke_refresh_token_run.
  assert (Hkey : refresh_key tok ≠ refresh_key other).
  { intros Heq. by apply Hother, eq_sym, refresh_key_inj. }
  destruct (live_value (store w) (refresh_key tok) now) as [v|] eqn:Hlive.
  - eexists. split; [done|]. split.
    + intros t _. apply live_value_delete.
    + intros t. apply verify_refresh_token_result. cbn [store with_store].
      unfold live_value. by rewrite lookup_delete_ne.
  - eexists. split; [done|]. split.
    + intros t Ht. cbn [store with_call]. unfold live_value in *.
      destruct (store w !! refresh_key tok) as [[v dl]|]; [|done].
      destruct (now <? dl) eqn:Hnow; [done|].
      by rewrite (proj2 (Z.ltb_ge _ _)) by lia.
    + intros t. by apply verify_refresh_token_result.
Qed.

End RefreshTokenProperties.

(** ** The blacklist *)

Section BlacklistProperties.
Context {token : Type}.
Variable jwt_encode : Dict → string → string → token.
Variable jwt_decode : token → string → string → Z → option Dict.
Variable settings : Settings.

Local Abbreviation decode tok t :=
  (jwt_decode tok (PUBLIC_KEY settings) (ALGORITHM settings) t).

Lemma blacklist_key_inj (a b : string) :
  blacklist_key (PStr a) = blacklist_key (PStr b) → a = b.
Proof. unfold blacklist_key. cbn [py_str]. apply (inj (String.app _)). Qed.

Lemma blacklist_key_not_refresh_key (jti : Scalar) (tok : string) :
  blacklist_key jti ≠ refresh_key tok.
Proof. unfold blacklist_key, refresh_key. intros Heq. discriminate Heq. Qed.

(** X5: once [blacklist_token] has succeeded, [verify_token] refuses the
    token at every instant before the entry lapses. *)
Theorem blacklisted_token_is_rejected
    (tok : token) (now : Z) (w w' : World) :
  TOKEN_BLACKLIST_ENABLED settings = true →
  blacklist_token jwt_decode settings tok now w = (Ok true, w') →
  ∃ payload exp,
    decode tok now = Some payload
    ∧ py_number (py_get payload "exp") = Some exp
    ∧ ∀ t,
        t < now + py_int (exp * second - now) * second →
        (∀ p, decode tok t = Some p → py_get p "jti" = py_get payload "jti") →
        (verify_token jwt_decode settings tok t w').1 = Ok None.
Proof.
  intros Hen Hrun.
  destruct (blacklist_token_cases _ _ _ _ _ _ _ Hrun)
    as [([=] & _)|[(_ & Hoff & _)|(_ & _ & p & e & Hp & Hjti & He & Hpos & ->)]];
    [congruence|].
  exists p, e. split; [done|]. split; [done|].
  intros t Ht Hsame. rewrite verify_token_run.
  destruct (decode tok t) as [p'|] eqn:Hdec; [|done].
  rewrite (Hsame p' eq_refl), Hen, Hjti. cbn [andb store with_store with_call].
  unfold live_value. rewrite lookup_insert_eq.
  rewrite (proj2 (Z.ltb_lt _ _)) by done.
  by rewrite bool_decide_eq_true_2.
Qed.

Lemma blacklist_token_other_keys
    (tok : token) (now : Z) (w w' : World) (r : Result bool) (key : string) :
  blacklist_token jwt_decode settings tok now w = (r, w') →
  (∀ payload, decode tok now = Some payload →
              key ≠ blacklist_key (py_get payload "jti")) →
  store w' !! key = store w !! key.
Proof.
  intros Hrun Hkey.
  destruct (blacklist_token_cases _ _ _ _ _ _ _ Hrun)
    as [(_ & -> & _)|[(_ & _ & ->)|(_ & _ & p & e & Hp & _ & _ & _ & ->)]];
    [done..|].
  cbn [store with_store with_call]. rewrite lookup_insert_ne; [done|].
  intros Heq. by apply (Hkey p Hp).
Qed.

(** X6: [blacklist_token] changes the store at most under the key of the
    [jti] of the token it was given: refresh tokens stay as they are, and a
    token whose [jti] has another key is verified exactly as before. *)
Theorem blacklist_token_writes_only_its_own_entry
    (tok : token) (now : Z) (w w' : World) (r : Result bool) :
  blacklist_token jwt_decode settings tok now w = (r, w') →
  (∀ key,
     (∀ payload, decode tok now = Some payload →
                 key ≠ blacklist_key (py_get payload "jti")) →
     store w' !! key = store w !! key)
  ∧ (∀ refresh, store w' !! refresh_key refresh = store w !! refresh_key refresh)
  ∧ (∀ other t,
       (∀ p q, decode tok now = Some p → decode other t = Some q →
               blacklist_key (py_get q "jti") ≠ blacklist_key (py_get p "jti")) →
       (verify_token jwt_decode settings other t w').1
       = (verify_token jwt_decode settings other t w).1).
Proof.
  intros Hrun. split; [|split].
  - intros key. apply (blacklist_token_other_keys _ _ _ _ _ _ Hrun).
  - intros refresh. apply (blacklist_token_other_keys _ _ _ _ _ _ Hrun).
    intros payload _ Heq.
    by apply (blacklist_key_not_refresh_key (py_get payload "jti") refresh).
  - intros other t Hother. rewrite !verify_token_run.
    destruct (decode other t) as [q|] eqn:Hq; [|done].
    unfold live_value.
    rewrite (blacklist_token_other_keys _ _ _ _ _ _ Hrun); [done|].
    intros p Hp. by apply Hother.
Qed.

(** X7: a token with less than one second left cannot be blacklisted: the
    time to live comes out as zero, Redis refuses the [SETEX], and
    [blacklist_token] returns [False] with the store untouched. *)
Theorem token_in_its_last_second_cannot_be_blacklisted
    (tok : token) (now : Z) (w : World) (payload : Dict) (exp : Z) :
  TOKEN_BLACKLIST_ENABLED settings = true →
  decode tok now = Some payload →
  truthy (py_get payload "jti") = true →
  py_number (py_get payload "exp") = Some exp →
  exp * second - now < second →
  blacklist_token jwt_decode settings tok now w
  = (Ok false,
     with_call (SETEX (blacklist_key (py_get payload "jti")) 0 "1") w).
Proof.
  intros Hen Hdec Hjti Hexp Hlast. unfold blacklist_token.
  rewrite Hen. cbn [negb]. run. rewrite Hdec.
  assert (Hne : payload ≠ ∅).
  { intros ->. unfold py_get in Hjti. by rewrite lookup_empty in Hjti. }
  rewrite bool_decide_eq_false_2 by done. rewrite Hjti. cbn [negb].
  unfold remaining_ttl. rewrite Hexp. run.
  by rewrite py_int_below_one_second by done.
Qed.

(** X8: [blacklist_token] never raises, whatever the token and the store;
    it never touches the [auth_users] table, and when it returns [False] the
    store is what it was. *)
Theorem blacklist_token_never_raises (tok : token) (now : Z) (w : World) :
  ∃ (b : bool) (w' : World),
    blacklist_token jwt_decode settings tok now w = (Ok b, w')
    ∧ auth_users w' = auth_users w
    ∧ (b = false → store w' = store w).
Proof.
  destruct (blacklist_token jwt_decode settings tok now w) as [r w'] eqn:Hrun.
  destruct (blacklist_token_cases _ _ _ _ _ _ _ Hrun)
    as [(-> & Hs & Ha & _)|[(-> & _ & ->)|(-> & _ & p & e & _ & _ & _ & _ & ->)]].
  - by exists false, w'.
  - by exists true, w.
  - eexists true, _. done.
Qed.

(** X9: two tokens issued with different [jti]s from claims that the token
    library accepts are revoked separately: after the first is blacklisted,
    the second, if it was acceptable, still verifies to its claims. *)
Theorem revoking_one_token_keeps_the_other
    (data1 data2 : Dict) (delta1 delta2 : option Z) (jti1 jti2 : string)
    (issued1 issued2 now t : Z) (w w' : World) (r : Result bool) :
  jwt_round_trip jwt_encode jwt_decode
    (PRIVATE_KEY settings) (PUBLIC_KEY settings) (ALGORITHM settings) →
  claims_acceptable data1 now = true →
  claims_acceptable data2 t = true →
  jti1 ≠ jti2 →
  now < access_token_expire settings delta1 issued1 →
  t < access_token_expire settings delta2 issued2 →
  live_value (store w) (blacklist_key (PStr jti2)) t = None →
  blacklist_token jwt_decode settings
    (create_access_token jwt_encode settings data1 delta1 jti1 issued1) now w
  = (r, w') →
  (verify_token jwt_decode settings
     (create_access_token jwt_encode settings data2 delta2 jti2 issued2)
     t w').1
  = Ok (Some (<["exp" := PInt (timegm (access_token_expire settings
                                         delta2 issued2))]>
                (<["jti" := PStr jti2]> data2))).
Proof.
  intros Hlib Hok1 Hok2 Hne Hnow Ht Hfree Hrun.
  assert (Hdec : ∀ data delta jti issued x,
    claims_acceptable data x = true →
    x < access_token_expire settings delta issued →
    decode (create_access_token jwt_encode settings data delta jti issued) x
    = Some (<["exp" := PInt (timegm (access_token_expire settings
                                       delta issued))]>
              (<["jti" := PStr jti]> data))).
  { intros data delta jti issued x Hok Hx. unfold create_access_token.
    apply (Hlib _ (timegm (access_token_expire settings delta issued)));
      [by rewrite lookup_insert_eq|apply timegm_mono; lia
      |by apply jose_validates_issued]. }
  assert (Hjti : ∀ data jti (e : Scalar),
    py_get (<["exp" := e]> (<["jti" := PStr jti]> data)) "jti" = PStr jti).
  { intros. unfold py_get. rewrite lookup_insert_ne by done.
    by rewrite lookup_insert_eq. }
  rewrite verify_token_run, (Hdec _ _ _ _ _ Hok2 Ht), Hjti.
  unfold live_value.
  rewrite (blacklist_token_other_keys _ _ _ _ _ _ Hrun).
  - unfold live_value in Hfree. destruct (store w !! _) as [[v dl]|].
    + destruct (t <? dl); [done|].
      rewrite bool_decide_eq_false_2 by auto. by rewrite andb_false_r.
    + rewrite bool_decide_eq_false_2 by auto. by rewrite andb_false_r.
  - intros payload. rewrite (Hdec _ _ _ _ _ Hok1 Hnow). intros [= <-].
    rewrite Hjti. intros Heq. by apply Hne, eq_sym, blacklist_key_inj.
Qed.

End BlacklistProperties.

(** ** Logout *)

Section LogoutProperties.
Context {token : Type}.
Variable jwt_decode : token → string → string → Z → option Dict.
Variable json_loads : string → Result Value.
Variable settings : Settings.

Local Abbreviation decode tok t :=
  (jwt_decode tok (PUBLIC_KEY settings) (ALGORITHM settings) t).

Lemma blacklist_token_succeeds
    (tok : token) (now : Z) (w : World) (payload : Dict) (exp : Z) :
  TOKEN_BLACKLIST_ENABLED settings = true →
  decode tok now = Some payload →
  truthy (py_get payload "jti") = true →
  py_number (py_get payload "exp") = Some exp →
  second ≤ exp * second - now →
  blacklist_token jwt_decode settings tok now w
  = (Ok true,
     with_store
       (<[blacklist_key (py_get payload "jti") :=
            ("1", now + py_int (exp * second - now) * second)]> (store w))
       (with_call
          (SETEX (blacklist_key (py_get payload "jti"))
             (py_int (exp * second - now)) "1") w)).
Proof.
  intros Hen Hdec Hjti Hexp Hleft. unfold blacklist_token.
  rewrite Hen. cbn [negb]. run. rewrite Hdec.
  assert (Hne : payload ≠ ∅).
  { intros ->. unfold py_get in Hjti. by rewrite lookup_empty in Hjti. }
  rewrite bool_decide_eq_false_2 by done. rewrite Hjti. cbn [negb].
  unfold remaining_ttl. rewrite Hexp. run.
  pose proof (py_int_from_one_second _ Hleft) as Hpos.
  rewrite Z.max_l by lia. by rewrite (proj2 (Z.leb_gt _ _)) by done.
Qed.

(** X10: a logout with a refresh token that is in the store and an access
    token that decodes, carries a [jti] and has at least one second left
    succeeds; it has deleted the refresh record and written the blacklist
    entry, so that the refresh token no longer verifies and the access token
    is refused until the entry lapses. *)
Theorem logout_revokes_both_tokens
    (req : LogoutRequest) (now : Z) (w : World) (payload : Dict) (exp : Z) :
  TOKEN_BLACKLIST_ENABLED settings = true →
  is_Some (live_value (store w) (refresh_key (refresh_token req)) now) →
  decode (access_token req) now = Some payload →
  truthy (py_get payload "jti") = true →
  py_number (py_get payload "exp") = Some exp →
  second ≤ exp * second - now →
  ∃ w',
    logout jwt_decode settings req now w = (Ok "ログアウトしました", w')
    ∧ calls w'
      = calls w
        ++ [DEL (refresh_key (refresh_token req));
            SETEX (blacklist_key (py_get payload "jti"))
              (py_int (exp * second - now)) "1"]
    ∧ (∀ t, (verify_refresh_token json_loads (refresh_token req) t w').1
            = Ok PNone)
    ∧ (∀ t,
         t < now + py_int (exp * second - now) * second →
         (∀ p, decode (access_token req) t = Some p →
               py_get p "jti" = py_get payload "jti") →
         (verify_token jwt_decode settings (access_token req) t w').1
         = Ok None).
Proof.
  intros Hen [v Hlive] Hdec Hjti Hexp Hleft. unfold logout. run.
  rewrite revoke_refresh_token_run, Hlive. cbn [negb].
  rewrite (blacklist_token_succeeds _ _ _ _ _ Hen Hdec Hjti Hexp Hleft).
  cbn [negb]. eexists. split; [done|]. cbn [calls with_store with_call].
  rewrite <- app_assoc. split; [done|]. split.
  - intros t. rewrite verify_refresh_token_absent; [done|].
    cbn [store with_store with_call]. unfold live_value.
    rewrite lookup_insert_ne by apply blacklist_key_not_refresh_key.
    by rewrite lookup_delete_eq.
  - intros t Ht Hsame. rewrite verify_token_run.
    destruct (decode (access_token req) t) as [p|] eqn:Hp; [|done].
    rewrite (Hsame p eq_refl), Hen, Hjti.
    cbn [andb store with_store with_call]. unfold live_value.
    rewrite lookup_insert_eq. rewrite (proj2 (Z.ltb_lt _ _)) by done.
    by rewrite bool_decide_eq_true_2.
Qed.

(** X11: logout cannot be repeated: after a logout that succeeded, the same
    request fails with status 400 at any instant and leaves the store as the
    first logout left it. *)
Theorem repeated_logout_fails
    (req : LogoutRequest) (now again : Z) (w w' : World) (detail : string) :
  logout jwt_decode settings req now w = (Ok detail, w') →
  ∃ w'',
    logout jwt_decode settings req again w' = (Raise (HTTPException 400), w'')
    ∧ store w'' = store w'.
Proof.
  intros Hrun.
  assert (Hgone : store w' !! refresh_key (refresh_token req) = None).
  { revert Hrun. unfold logout. run. rewrite revoke_refresh_token_run.
    destruct (live_value (store w) _ now); cbn [negb]; [|by run].
    destruct (blacklist_token jwt_decode settings (access_token req) now _)
      as [r w2] eqn:Hbl.
    pose proof (blacklist_token_other_keys _ _ _ _ _ _ _
                  (refresh_key (refresh_token req)) Hbl) as Hkey.
    destruct r as [[|]|e]; cbn [negb]; run;
      [|discriminate|destruct e; discriminate].
    intros [= _ <-]. rewrite Hkey.
    - cbn [store with_store with_call]. apply lookup_delete_eq.
    - intros p _ Heq. by apply (blacklist_key_not_refresh_key _ _ (eq_sym Heq)). }
  unfold logout. run. rewrite revoke_refresh_token_run.
  unfold live_value. rewrite Hgone. cbn [negb]. run. by eexists.
Qed.

End LogoutProperties.

(** ** The password escrow *)

Lemma save_password_to_redis_run (username password : string)
    (ttl_seconds now : Z) (w : World) :
  let key := "temp_password:" +:+ username +:+ ":" +:+ pretty (py_int now) in
  save_password_to_redis username password ttl_seconds now w
  = if ttl_seconds <=? 0
    then (Raise ResponseError, with_call (SETEX key ttl_seconds password) w)
    else (Ok key,
          with_store
            (<[key := (password, now + ttl_seconds * second)]> (store w))
            (with_call (SETEX key ttl_seconds password) w)).
Proof.
  intros key. unfold save_password_to_redis. run. fold key.
  by destruct (ttl_seconds <=? 0).
Qed.

(** X12: a password put in escrow is handed out as often as it is asked for
    while its time to live runs, until it is deleted; the first delete
    returns [True], and from then on the key yields nothing and a second
    delete returns [False]. *)
Theorem escrow_round_trip
    (username password : string) (ttl_seconds now t : Z) (w : World) :
  0 < ttl_seconds →
  password ≠ "" →
  t < now + ttl_seconds * second →
  ∃ key w1 w2 w3 w4 w5,
    save_password_to_redis username password ttl_seconds now w = (Ok key, w1)
    ∧ key = "temp_password:" +:+ username +:+ ":" +:+ pretty (py_int now)
    ∧ get_password_from_redis (PStr key) t w1 = (Ok (Some password), w2)
    ∧ delete_password_from_redis (PStr key) t w2 = (Ok true, w3)
    ∧ get_password_from_redis (PStr key) t w3 = (Ok None, w4)
    ∧ delete_password_from_redis (PStr key) t w4 = (Ok false, w5).
Proof.
  intros Httl Hne Ht.
  rewrite save_password_to_redis_run. rewrite (proj2 (Z.leb_gt _ _)) by done.
  eexists _, _, _, _, _, _. split; [done|]. split; [done|].
  split; [|split; [|split]].
  - rewrite get_password_from_redis_run.
    cbn [redis_encode store with_store with_call]. unfold live_value.
    rewrite lookup_insert_eq. rewrite (proj2 (Z.ltb_lt _ _)) by done.
    by rewrite bool_decide_eq_false_2 by done.
  - rewrite delete_password_from_redis_run.
    cbn [redis_encode store with_store with_call]. unfold live_value.
    rewrite lookup_insert_eq. by rewrite (proj2 (Z.ltb_lt _ _)) by done.
  - rewrite get_password_from_redis_run.
    cbn [redis_encode store with_store with_call]. unfold live_value.
    by rewrite lookup_delete_eq.
  - rewrite delete_password_from_redis_run.
    cbn [redis_encode store with_store with_call]. unfold live_value.
    by rewrite lookup_delete_eq.
Qed.

(** X13: the escrow is bounded in time: once the time to live has run, the
    key yields nothing, and a time to live that is not positive is refused
    with nothing stored. *)
Theorem escrow_lapses
    (username password : string) (ttl_seconds now : Z) (w : World) :
  (0 < ttl_seconds →
   ∃ key w1,
     save_password_to_redis username password ttl_seconds now w = (Ok key, w1)
     ∧ ∀ t, now + ttl_seconds * second ≤ t →
            (get_password_from_redis (PStr key) t w1).1 = Ok None)
  ∧ (ttl_seconds ≤ 0 →
     ∃ w1,
       save_password_to_redis username password ttl_seconds now w
       = (Raise ResponseError, w1)
       ∧ store w1 = store w).
Proof.
  rewrite save_password_to_redis_run. split; intros Httl.
  - rewrite (proj2 (Z.leb_gt _ _)) by done. eexists _, _. split; [done|].
    intros t Ht. rewrite get_password_from_redis_run.
    cbn [redis_encode store with_store with_call fst]. unfold live_value.
    rewrite lookup_insert_eq. by rewrite (proj2 (Z.ltb_ge _ _)) by done.
  - rewrite (proj2 (Z.leb_le _ _)) by done. by eexists.
Qed.

(** X14: the escrow key is the username and the second of the clock: two
    registrations of one username within the same second share the key, and
    the password of the second replaces that of the first. *)
Theorem escrow_key_collides_within_a_second
    (username first second_password : string) (ttl1 ttl2 now1 now2 t : Z)
    (w : World) :
  0 < ttl1 → 0 < ttl2 →
  py_int now1 = py_int now2 →
  second_password ≠ "" →
  t < now2 + ttl2 * second →
  ∃ key w1 w2,
    save_password_to_redis username first ttl1 now1 w = (Ok key, w1)
    ∧ save_password_to_redis username second_password ttl2 now2 w1
      = (Ok key, w2)
    ∧ (get_password_from_redis (PStr key) t w2).1 = Ok (Some second_password).
Proof.
  intros H1 H2 Hsame Hne Ht.
  eexists _, _, _. split; [|split].
  { rewrite save_password_to_redis_run, Hsame.
    by rewrite (proj2 (Z.leb_gt _ _)) by done. }
  { rewrite save_password_to_redis_run.
    by rewrite (proj2 (Z.leb_gt _ _)) by done. }
  rewrite get_password_from_redis_run.
  cbn [redis_encode store with_store with_call fst]. unfold live_value.
  rewrite lookup_insert_eq. rewrite (proj2 (Z.ltb_lt _ _)) by done.
  by rewrite bool_decide_eq_false_2 by done.
Qed.

(** ** The creation-completed consumer *)

Section ConsumerProperties.
Variable get_password_hash : string → string.
Variable uuid_parse : string → option string.
Variable email_validate : string → option string.
Variable integrity_message : IntegrityConstraint → AuthUser.t → string.

Local Abbreviation create_record :=
  (create_local_record get_password_hash uuid_parse email_validate
     integrity_message).
Local Abbreviation handler :=
  (handle_user_creation_response get_password_hash uuid_parse email_validate
     integrity_message).

(** What a successful record creation has checked and built. *)
Lemma create_local_record_ok (username email : Scalar) (password : string)
    (user_id : Value) (uuid4 : string) (w w1 : World) (row : AuthUser.t) :
  create_record username email password user_id uuid4 w = (Ok row, w1) →
  ∃ user_create uid,
    AuthUserCreate_init email_validate username email password = Ok user_create
    ∧ uuid_UUID uuid_parse user_id = Ok uid
    ∧ row = AuthUser.mk uuid4 (AuthUserCreate.username user_create)
              (AuthUserCreate.email user_create)
              (get_password_hash (AuthUserCreate.password user_create)) uid
    ∧ violated (auth_users w ++ session_new w) row = None.
Proof.
  unfold create_local_record, lift, create_with_user_id, session_add_flush.
  run.
  destruct (AuthUserCreate_init _ _ _ _) as [uc|e]; run; [|done].
  destruct (uuid_UUID _ _) as [uid|e]; run; [|done].
  destruct (violated _ _) as [c|] eqn:Hv; run.
  - by repeat destruct (py_in _ _).
  - intros [= <- <-]. by exists uc, uid.
Qed.

(** The two ways a run of the handler can end. *)
Lemma handler_cases (user_data : gmap string Value) (uuid4 : string)
    (now : Z) (w : World) :
  ∃ w',
    handler user_data uuid4 now w = (Ok (), w')
    ∧ ((auth_users w' = auth_users w ∧ store w' = store w)
       ∨ ∃ d k password row w1,
           user_data !! "original_request" = Some (Obj d)
           ∧ redis_encode (py_get d "password_key") = Ok k
           ∧ live_value (store w) k now = Some password
           ∧ create_record (py_get d "username") (py_get d "email") password
               (default (Atom PNone) (user_data !! "id")) uuid4
               (mkWorld (store w) (calls w ++ [GET k]) (auth_users w) [])
             = (Ok row, w1)
           ∧ store w' = delete k (store w)
           ∧ auth_users w' = auth_users w ++ [row]).
Proof.
  unfold handle_user_creation_response. run.
  destruct (truthy_value _); cbn [negb]; [|by eauto 10].
  destruct (user_data !! "original_request") as [[a|d]|] eqn:Horig;
    cbn [default from_option id]; run; [by eauto 10| |].
  2:{ unfold py_get. rewrite !lookup_empty. cbn. eauto 10. }
  destruct (truthy (py_get d "username")); cbn [negb orb]; [|by eauto 10].
  destruct (truthy (py_get d "email")); cbn [negb orb]; [|by eauto 10].
  destruct (truthy (py_get d "password_key")); cbn [negb orb]; [|by eauto 10].
  rewrite get_password_from_redis_run.
  destruct (redis_encode (py_get d "password_key")) as [k|e] eqn:Hk;
    [|by eauto 10].
  destruct (live_value (store w) k now) as [password|] eqn:Hlive;
    [|by eauto 10].
  case_bool_decide as Hempty; [by eauto 10|].
  rewrite bool_decide_eq_false_2 by done.
  unfold for_async_session, session_rollback, session_commit. run.
  destruct (create_record _ _ _ _ _ _) as [[row|e] w1] eqn:Hrun.
  - destruct (create_local_record_frame _ _ _ _ _ _ _ _ _ _ _ _ Hrun)
      as (Hs & Hc & Ha & Hn).
    rewrite delete_password_from_redis_run, Hk, Hs. cbn [store].
    rewrite Hlive. run. eexists. split; [done|]. right.
    exists d, k, password, row, w1. cbn. rewrite ?Hs, ?Ha, ?Hn. done.
  - destruct (create_local_record_frame _ _ _ _ _ _ _ _ _ _ _ _ Hrun)
      as (Hs & Hc & Ha & Hn).
    run. eexists. split; [done|]. left. cbn. by rewrite Hs, Ha.
Qed.

Lemma handler_finalizes
    (user_data : gmap string Value) (d : Dict) (uuid4 : string) (now : Z)
    (w : World) (remote_id uid username email email' key password : string) :
  user_data !! "id" = Some (Atom (PStr remote_id)) →
  remote_id ≠ "" →
  uuid_parse remote_id = Some uid →
  user_data !! "original_request" = Some (Obj d) →
  d !! "username" = Some (PStr username) →
  3 ≤ str_len username ≤ 50 →
  d !! "email" = Some (PStr email) →
  email ≠ "" →
  email_validate email = Some email' →
  d !! "password_key" = Some (PStr key) →
  key ≠ "" →
  live_value (store w) key now = Some password →
  1 ≤ str_len password ≤ 16 →
  violated (auth_users w)
    (AuthUser.mk uuid4 username email' (get_password_hash password) uid)
  = None →
  handler user_data uuid4 now w
  = (Ok (),
     mkWorld (delete key (store w)) (calls w ++ [GET key; DEL key])
       (auth_users w
        ++ [AuthUser.mk uuid4 username email' (get_password_hash password)
              uid]) []).
Proof.
  intros Hid Hidne Huid Horig Hu Hulen He Hene Hev Hk Hkne Hlive Hplen Hv.
  assert (Hune : username ≠ "").
  { intros ->. cbn in Hulen. lia. }
  assert (Hpne : password ≠ "").
  { intros ->. cbn in Hplen. lia. }
  unfold handle_user_creation_response. run.
  rewrite Hid, Horig. cbn [default from_option id truthy_value truthy].
  rewrite (bool_decide_eq_false_2 (remote_id = "")) by done. cbn [negb]. run.
  unfold py_get. rewrite Hu, He, Hk. cbn [default from_option id truthy].
  rewrite !bool_decide_eq_false_2 by done. cbn [negb orb].
  rewrite get_password_from_redis_run. cbn [redis_encode].
  rewrite Hlive. rewrite !bool_decide_eq_false_2 by done.
  unfold for_async_session, session_rollback, session_commit. run.
  unfold create_local_record, lift, AuthUserCreate_init, uuid_UUID,
    create_with_user_id, session_add_flush. run.
  rewrite (proj2 (Z.leb_le _ _)) by lia.
  rewrite (proj2 (Z.leb_le _ _)) by lia. cbn [andb].
  rewrite Hev. rewrite (proj2 (Z.leb_le _ _)) by lia.
  rewrite (proj2 (Z.leb_le _ _)) by lia. cbn [andb]. run.
  rewrite Huid. run. cbn [AuthUserCreate.username AuthUserCreate.email
                           AuthUserCreate.password].
  rewrite app_nil_r, Hv. run.
  rewrite delete_password_from_redis_run. cbn [redis_encode store].
  rewrite Hlive. run. cbn. by rewrite <- app_assoc.
Qed.

(** X15: the handler never lets an exception out, whatever the message and
    the world; it adds at most one row to [auth_users] and removes none. *)
Theorem handler_never_raises (user_data : gmap string Value) (uuid4 : string)
    (now : Z) (w : World) :
  ∃ w',
    handler user_data uuid4 now w = (Ok (), w')
    ∧ (auth_users w' = auth_users w
       ∨ ∃ row, auth_users w' = auth_users w ++ [row]).
Proof.
  destruct (handler_cases user_data uuid4 now w)
    as (w' & Hrun & [[Ha _]|(d & k & pw & row & w1 & _ & _ & _ & _ & _ & Ha)]);
    exists w'; eauto.
Qed.


(** X17: a replayed completion message does nothing: if a run of the
    handler has added a row, any later run on the same message, at any
    instant and with any fresh primary key, returns with the table and the
    store as they are. *)
Theorem replayed_completion_is_harmless
    (user_data : gmap string Value) (uuid4 uuid4' : string) (now again : Z)
    (w w' : World) :
  handler user_data uuid4 now w = (Ok (), w') →
  auth_users w' ≠ auth_users w →
  ∃ w'',
    handler user_data uuid4' again w' = (Ok (), w'')
    ∧ auth_users w'' = auth_users w'
    ∧ store w'' = store w'.
Proof.
  intros Hrun Hadded.
  destruct (handler_cases user_data uuid4 now w)
    as (w0 & Hrun0 & [[Ha _]|(d & k & pw & row & w1 & Horig & Hk & _ & _ & Hs & _)]);
    rewrite Hrun in Hrun0; injection Hrun0 as <-; [done|].
  destruct (handler_cases user_data uuid4' again w')
    as (w'' & Hrun2 & [[Ha2 Hs2]|(d2 & k2 & pw2 & row2 & w2 & Horig2 & Hk2 & Hlive2 & _)]);
    [by exists w''|].
  rewrite Horig in Horig2. injection Horig2 as <-.
  rewrite Hk in Hk2. injection Hk2 as <-.
  rewrite Hs in Hlive2. by rewrite live_value_delete in Hlive2.
Qed.

Lemma violated_none_fresh (rows : list AuthUser.t) (r : AuthUser.t) :
  violated rows r = None →
  (AuthUser.username r ∉ (AuthUser.username <$> rows))
  ∧ (AuthUser.email r ∉ (AuthUser.email <$> rows))
  ∧ (AuthUser.user_id r ∉ (AuthUser.user_id <$> rows))
  ∧ (AuthUser.id r ∉ (AuthUser.id <$> rows)).
Proof. unfold violated. by repeat case_bool_decide. Qed.

Lemma unique_rows_snoc (rows : list AuthUser.t) (r : AuthUser.t) :
  unique_rows rows → violated rows r = None → unique_rows (rows ++ [r]).
Proof.
  intros (Hu & He & Hi & Hp) Hv.
  destruct (violated_none_fresh _ _ Hv) as (Hu' & He' & Hi' & Hp').
  unfold unique_rows. rewrite !fmap_app. cbn [fmap list_fmap].
  repeat split; apply NoDup_app; (split; [done|]);
    (split; [|apply NoDup_singleton]);
    intros x Hx ->%list_elem_of_singleton; done.
Qed.

(** X18: the handler keeps the unique indexes of [auth_users]: if usernames,
    e-mails, user ids and primary keys are pairwise distinct before a run,
    they are so after it. *)
Theorem handler_keeps_rows_unique
    (user_data : gmap string Value) (uuid4 : string) (now : Z) (w w' : World) :
  unique_rows (auth_users w) →
  handler user_data uuid4 now w = (Ok (), w') →
  unique_rows (auth_users w').
Proof.
  intros Huniq Hrun.
  destruct (handler_cases user_data uuid4 now w)
    as (w0 & Hrun0 & [[Ha _]|(d & k & pw & row & w1 & _ & _ & _ & Hrec & _ & Ha)]);
    rewrite Hrun in Hrun0; injection Hrun0 as <-; rewrite Ha; [done|].
  destruct (create_local_record_ok _ _ _ _ _ _ _ _ Hrec)
    as (uc & uid & _ & _ & _ & Hv).
  cbn [auth_users session_new] in Hv. rewrite app_nil_r in Hv.
  by apply unique_rows_snoc.
Qed.

End ConsumerProperties.

(** ** Login, refresh and the current user *)

Lemma get_by_id_None (rows : list AuthUser.t) :
  get_by_id PNone rows = inl UserNotFoundError.
Proof.
  unfold get_by_id.
  assert (Hnone : filter (λ r, PStr (AuthUser.id r) = PNone) rows = []).
  { induction rows as [|r rows IH]; [done|].
    by rewrite filter_cons_False. }
  by rewrite Hnone.
Qed.

Section EndpointProperties.
Context {token : Type}.
Variable jwt_encode : Dict → string → string → token.
Variable jwt_decode : token → string → string → Z → option Dict.
Variable json_dumps : Dict → string.
Variable json_loads : string → Result Value.
Variable settings : Settings.
Variable verify_password : string → string → bool.

Local Abbreviation decode tok t :=
  (jwt_decode tok (PUBLIC_KEY settings) (ALGORITHM settings) t).
Local Abbreviation expiry_seconds :=
  (REFRESH_TOKEN_EXPIRE_DAYS settings * 24 * 60 * 60).
Local Abbreviation record_of auth_user_id now :=
  ({[ "auth_user_id" := PStr auth_user_id;
      "expires_at" := PInt (py_int (now + expiry_seconds * second)) ]} : Dict).
Local Abbreviation do_login :=
  (login jwt_encode json_dumps settings verify_password).
Local Abbreviation do_refresh :=
  (refresh_token_endpoint jwt_encode jwt_decode json_dumps json_loads settings).
Local Abbreviation issue db_user uuid4 now :=
  (create_access_token jwt_encode settings (access_claims db_user)
     (Some (minutes (ACCESS_TOKEN_EXPIRE_MINUTES settings))) uuid4 now).

(** X19: a login with an unknown username and a login with a wrong password
    fail alike: status 401, no command sent to Redis, the world as it was. *)
Theorem login_failure_is_uniform
    (username password uuid4 token_urlsafe : string) (now : Z) (w : World) :
  (get_by_username username (auth_users w) = inl UserNotFoundError
   ∨ ∃ db_user,
       get_by_username username (auth_users w) = inr db_user
       ∧ verify_password password (AuthUser.hashed_password db_user) = false) →
  do_login username password uuid4 token_urlsafe now w
  = (Raise (HTTPException 401), w).
Proof.
  intros [Hnone|(db_user & Hfound & Hwrong)];
    unfold login, select_auth_users; run.
  - by rewrite Hnone.
  - by rewrite Hfound, Hwrong.
Qed.

Lemma access_token_expire_minutes (now : Z) :
  access_token_expire settings
    (Some (minutes (ACCESS_TOKEN_EXPIRE_MINUTES settings))) now
  = now + minutes (ACCESS_TOKEN_EXPIRE_MINUTES settings).
Proof. unfold access_token_expire. by destruct (_ =? 0). Qed.

(** The claims of [login] and [refresh_token] are three strings, which the
    token library accepts. *)
Lemma access_claims_acceptable (db_user : AuthUser.t) (t : Z) :
  claims_acceptable (access_claims db_user) t = true.
Proof.
  unfold claims_acceptable, access_claims.
  rewrite !(lookup_insert_ne _ "sub") by done.
  rewrite !(lookup_insert_ne _ "user_id") by done.
  rewrite !lookup_singleton_ne by done.
  by rewrite lookup_insert_eq.
Qed.

(** X20: a login with the right password returns two tokens that verify: the
    access token, before its expiry, to the user's claims with the drawn
    [jti]; the refresh token, while its record lives, to the user's id. *)
Theorem login_issues_tokens_that_verify
    (username password uuid4 token_urlsafe : string) (now t : Z) (w : World)
    (db_user : AuthUser.t) :
  get_by_username username (auth_users w) = inr db_user →
  verify_password password (AuthUser.hashed_password db_user) = true →
  0 < REFRESH_TOKEN_EXPIRE_DAYS settings →
  jwt_round_trip jwt_encode jwt_decode
    (PRIVATE_KEY settings) (PUBLIC_KEY settings) (ALGORITHM settings) →
  json_round_trip_on json_dumps json_loads
    (record_of (AuthUser.id db_user) now) →
  live_value (store w) (blacklist_key (PStr uuid4)) t = None →
  t < now + minutes (ACCESS_TOKEN_EXPIRE_MINUTES settings) →
  t < now + expiry_seconds * second →
  t ≤ py_int (now + expiry_seconds * second) * second →
  ∃ w',
    do_login username password uuid4 token_urlsafe now w
    = (Ok (issue db_user uuid4 now, token_urlsafe), w')
    ∧ (verify_token jwt_decode settings (issue db_user uuid4 now) t w').1
      = Ok (Some
              (<["exp" :=
                   PInt (timegm
                           (now + minutes (ACCESS_TOKEN_EXPIRE_MINUTES
                                             settings)))]>
                 (<["jti" := PStr uuid4]> (access_claims db_user))))
    ∧ (verify_refresh_token json_loads token_urlsafe t w').1
      = Ok (PStr (AuthUser.id db_user)).
Proof.
  intros Hfound Hpw Hdays Hlib [Hne Hjson] Hfree Haccess Hlive Hfresh.
  unfold login, select_auth_users. run. rewrite Hfound, Hpw. cbn [negb]. run.
  rewrite create_refresh_token_run by done. run.
  eexists. split; [done|]. split.
  - rewrite verify_token_run. unfold create_access_token.
    rewrite access_token_expire_minutes.
    rewrite (Hlib _ (timegm (now + minutes (ACCESS_TOKEN_EXPIRE_MINUTES
                                             settings))));
      [|by rewrite lookup_insert_eq|apply timegm_mono; lia
       |apply jose_validates_issued, access_claims_acceptable].
    unfold py_get. rewrite lookup_insert_ne by done.
    rewrite lookup_insert_eq. cbn [default from_option id store].
    unfold live_value in *.
    rewrite lookup_insert_ne
      by (intros Heq; by apply (blacklist_key_not_refresh_key _ _ (eq_sym Heq))).
    destruct (store w !! blacklist_key (PStr uuid4)) as [[v dl]|].
    + destruct (t <? dl); [done|].
      rewrite bool_decide_eq_false_2 by auto. by rewrite !andb_false_r.
    + rewrite bool_decide_eq_false_2 by auto. by rewrite !andb_false_r.
  - unfold verify_refresh_token. run. unfold live_value.
    rewrite lookup_insert_eq. rewrite (proj2 (Z.ltb_lt _ _)) by done.
    rewrite bool_decide_eq_false_2 by done. rewrite Hjson.
    rewrite lookup_insert_ne by done. rewrite lookup_singleton_eq.
    cbn [default from_option id py_number].
    rewrite (proj2 (Z.ltb_ge _ _)) by done.
    unfold py_get. by rewrite lookup_insert_eq.
Qed.

(** X21: a refresh with a refresh token that is not in the store answers
    401: [verify_refresh_token] returns [None], no row has the id [None],
    and nothing is revoked, blacklisted or issued. *)
Theorem refresh_with_unknown_token_is_unauthorized
    (req : RefreshTokenRequest.t token) (uuid4 token_urlsafe : string)
    (now : Z) (w : World) :
  live_value (store w)
    (refresh_key (RefreshTokenRequest.refresh_token req)) now = None →
  ∃ w',
    do_refresh req uuid4 token_urlsafe now w = (Raise (HTTPException 401), w')
    ∧ store w' = store w
    ∧ calls w'
      = calls w ++ [GET (refresh_key (RefreshTokenRequest.refresh_token req))].
Proof.
  intros Habsent. unfold refresh_token_endpoint. run.
  rewrite verify_refresh_token_absent by done.
  unfold select_auth_users. run. rewrite get_by_id_None. run. by eexists.
Qed.

Lemma verify_refresh_token_valid (tok : string) (now : Z) (w : World)
    (s : string) (d : Dict) (e : Z) :
  live_value (store w) (refresh_key tok) now = Some s →
  s ≠ "" →
  json_loads s = Ok (Obj d) →
  py_number (default (PInt 0) (d !! "expires_at")) = Some e →
  now ≤ e * second →
  verify_refresh_token json_loads tok now w
  = (Ok (py_get d "auth_user_id"), with_call (GET (refresh_key tok)) w).
Proof.
  intros Hlive Hne Hjson He Hfresh. unfold verify_refresh_token. run.
  rewrite Hlive. rewrite bool_decide_eq_false_2 by done.
  rewrite Hjson, He. by rewrite (proj2 (Z.ltb_ge _ _)) by done.
Qed.

(** X22: the rotation is not atomic: when the refresh token is good and the
    blacklisting of the old access token fails, the refresh answers 400, the
    old refresh token is already deleted and no new one has been stored. *)
Theorem failed_refresh_loses_the_refresh_token
    (req : RefreshTokenRequest.t token) (uuid4 token_urlsafe : string)
    (now : Z) (w : World) (s : string) (d : Dict) (e : Z)
    (db_user : AuthUser.t) :
  let old := RefreshTokenRequest.refresh_token req in
  live_value (store w) (refresh_key old) now = Some s →
  s ≠ "" →
  json_loads s = Ok (Obj d) →
  py_number (default (PInt 0) (d !! "expires_at")) = Some e →
  now ≤ e * second →
  get_by_id (py_get d "auth_user_id") (auth_users w) = inr db_user →
  (∀ w1, (blacklist_token jwt_decode settings
            (RefreshTokenRequest.access_token req) now w1).1 ≠ Ok true) →
  ∃ w',
    do_refresh req uuid4 token_urlsafe now w = (Raise (HTTPException 400), w')
    ∧ store w' = delete (refresh_key old) (store w)
    ∧ ∀ t, (verify_refresh_token json_loads old t w').1 = Ok PNone.
Proof.
  intros old Hlive Hne Hjson He Hfresh Huser Hbl.
  unfold refresh_token_endpoint. run. fold old.
  rewrite (verify_refresh_token_valid _ _ _ _ _ _ Hlive Hne Hjson He Hfresh).
  unfold select_auth_users. run. rewrite Huser. run.
  rewrite revoke_refresh_token_run. cbn [store]. rewrite Hlive. cbn [negb].
  match goal with |- context [blacklist_token _ _ _ _ ?x] =>
    set (w1 := x) end.
  specialize (Hbl w1).
  destruct (blacklist_token jwt_decode settings _ now w1) as [r w2] eqn:Hrun.
  destruct (blacklist_token_cases _ _ _ _ _ _ _ Hrun)
    as [(-> & Hs & _)|[(-> & _)|(-> & _)]]; [|done..].
  cbn [negb]. run. eexists. split; [done|].
  assert (Hstore : store w2 = delete (refresh_key old) (store w)) by by rewrite Hs.
  split; [done|]. intros t. rewrite verify_refresh_token_absent; [done|].
  rewrite Hstore. apply live_value_delete.
Qed.

(** X23: a refresh with a good refresh token, a known user and an access
    token that can be blacklisted returns a new pair and has, in this order,
    read and deleted the old record, written the blacklist entry and stored
    the new record; the old refresh token is refused from then on. *)
Theorem refresh_rotates_both_tokens
    (req : RefreshTokenRequest.t token) (uuid4 token_urlsafe : string)
    (now : Z) (w : World) (s : string) (d : Dict) (e : Z)
    (db_user : AuthUser.t) (payload : Dict) (exp : Z) :
  let old := RefreshTokenRequest.refresh_token req in
  let ttl := py_int (exp * second - now) in
  let record := json_dumps (record_of (AuthUser.id db_user) now) in
  live_value (store w) (refresh_key old) now = Some s →
  s ≠ "" →
  json_loads s = Ok (Obj d) →
  py_number (default (PInt 0) (d !! "expires_at")) = Some e →
  now ≤ e * second →
  get_by_id (py_get d "auth_user_id") (auth_users w) = inr db_user →
  TOKEN_BLACKLIST_ENABLED settings = true →
  decode (RefreshTokenRequest.access_token req) now = Some payload →
  truthy (py_get payload "jti") = true →
  py_number (py_get payload "exp") = Some exp →
  second ≤ exp * second - now →
  0 < REFRESH_TOKEN_EXPIRE_DAYS settings →
  token_urlsafe ≠ "" →
  token_urlsafe ≠ old →
  ∃ w',
    do_refresh req uuid4 token_urlsafe now w
    = (Ok (issue db_user uuid4 now, token_urlsafe), w')
    ∧ calls w'
      = calls w
        ++ [GET (refresh_key old); DEL (refresh_key old);
            SETEX (blacklist_key (py_get payload "jti")) ttl "1";
            SETEX (refresh_key token_urlsafe) expiry_seconds record]
    ∧ store w'
      = <[refresh_key token_urlsafe :=
            (record, now + expiry_seconds * second)]>
          (<[blacklist_key (py_get payload "jti") :=
               ("1", now + ttl * second)]>
             (delete (refresh_key old) (store w)))
    ∧ ∀ t, (verify_refresh_token json_loads old t w').1 = Ok PNone.
Proof.
  intros old ttl record Hlive Hne Hjson He Hfresh Huser
    Hen Hdec Hjti Hexp Hleft Hdays Hnew Hdiff.
  unfold refresh_token_endpoint. run. fold old.
  rewrite (verify_refresh_token_valid _ _ _ _ _ _ Hlive Hne Hjson He Hfresh).
  unfold select_auth_users. run. rewrite Huser. run.
  rewrite revoke_refresh_token_run. cbn [store]. rewrite Hlive. cbn [negb].
  rewrite (blacklist_token_succeeds _ _ _ _ _ _ _ Hen Hdec Hjti Hexp Hleft).
  cbn [negb]. rewrite create_refresh_token_run by done. run.
  rewrite bool_decide_eq_false_2 by done.
  eexists. split; [done|]. cbn [calls store]. rewrite <- !app_assoc.
  split; [done|]. split; [done|].
  intros t. rewrite verify_refresh_token_absent; [done|].
  cbn [store]. unfold live_value.
  rewrite lookup_insert_ne
    by (intros Heq; by apply Hdiff, refresh_key_inj).
  rewrite lookup_insert_ne by apply blacklist_key_not_refresh_key.
  by rewrite lookup_delete_eq.
Qed.

(** X24: [get_current_user] answers 401 for a token that [verify_token]
    refuses and for one without a [user_id] claim; for an accepted token it
    returns the one row with that [user_id]; when no row has it, the
    [UserNotFoundError] of the lookup gets out instead of a 401. *)
Theorem get_current_user_outcomes (tok : token) (now : Z) (w : World) :
  ((verify_token jwt_decode settings tok now w).1 = Ok None →
   (get_current_user jwt_decode settings tok now w).1
   = Raises (HTTPException 401))
  ∧ (∀ payload,
       (verify_token jwt_decode settings tok now w).1 = Ok (Some payload) →
       payload !! "user_id" = None →
       (get_current_user jwt_decode settings tok now w).1
       = Raises (HTTPException 401))
  ∧ (∀ payload user_id,
       (verify_token jwt_decode settings tok now w).1 = Ok (Some payload) →
       payload !! "user_id" = Some (PStr user_id) →
       (get_current_user jwt_decode settings tok now w).1
       = match filter (λ r, AuthUser.user_id r = user_id) (auth_users w) with
         | [] => RaisesCrud UserNotFoundError
         | [user] => Returns user
         | _ => RaisesCrud MultipleResultsFound
         end).
Proof.
  assert (Hrows : ∀ r w', verify_token jwt_decode settings tok now w = (r, w') →
                          auth_users w' = auth_users w).
  { intros r w'. unfold verify_token. run.
    destruct (decode tok now) as [p|]; run; [|by intros [= <- <-]].
    rewrite is_token_blacklisted_run.
    destruct (_ && _); run; [|by intros [= <- <-]].
    case_bool_decide; by intros [= <- <-]. }
  unfold get_current_user.
  destruct (verify_token jwt_decode settings tok now w) as [r w'] eqn:Hrun.
  specialize (Hrows _ _ eq_refl). cbn [fst].
  split; [|split].
  - by intros ->.
  - intros payload -> Hmissing. unfold py_get. rewrite Hmissing.
    cbn [default from_option id]. by rewrite bool_decide_eq_true_2.
  - intros payload user_id -> Hclaim. unfold py_get. rewrite Hclaim.
    cbn [default from_option id]. rewrite bool_decide_eq_false_2 by done.
    unfold get_by_user_id, scalar_one_or_raise. rewrite Hrows.
    assert (Hfilter :
      filter (λ r, PStr (AuthUser.user_id r) = PStr user_id) (auth_users w)
      = filter (λ r, AuthUser.user_id r = user_id) (auth_users w)).
    { apply list_filter_iff. intros r. split; [by intros [= ->]|by intros ->]. }
    rewrite Hfilter. clear Hfilter.
    destruct (filter _ (auth_users w)) as [|user [|]]; reflexivity.
Qed.

End EndpointProperties.

(** ** Registration *)

Section RegisterProperties.
Variable publish : Dict → M unit.

(** X25: [register_auth_user] escrows the password before it publishes and
    never takes it back: it answers with the accepted username and e-mail
    or, when the publication raises, with status 500, and in both cases the
    password can be read under its key for the next 300 seconds. *)
Theorem register_leaves_password_in_escrow
    (user_in : AuthUserCreate.t) (now : Z) (w : World) :
  (∀ user_data w0, store (publish user_data w0).2 = store w0) →
  AuthUserCreate.password user_in ≠ "" →
  let key :=
    "temp_password:" +:+ AuthUserCreate.username user_in +:+ ":"
    +:+ pretty (py_int now) in
  ∃ r w',
    register_auth_user publish user_in now w = (r, w')
    ∧ (r = Ok (AuthUserCreate.username user_in, AuthUserCreate.email user_in)
       ∨ r = Raise (HTTPException 500))
    ∧ ∀ t, t < now + 300 * second →
           (get_password_from_redis (PStr key) t w').1
           = Ok (Some (AuthUserCreate.password user_in)).
Proof.
  intros Hframe Hne key. unfold register_auth_user.
  unfold try_except at 1. unfold mbind at 1, M_bind at 1.
  rewrite save_password_to_redis_run. fold key. cbn [Z.leb Z.compare].
  cbn iota beta. unfold mbind at 1, M_bind at 1.
  match goal with |- context [publish ?d ?x] =>
    set (user_data := d); set (w1 := x) end.
  specialize (Hframe user_data w1).
  destruct (publish user_data w1) as [[[]|e] w2] eqn:Hpub; run;
    eexists _, _; (split; [done|]); cbn [snd] in Hframe.
  - split; [by left|].
    intros t Ht. rewrite get_password_from_redis_run.
    cbn [redis_encode fst]. rewrite Hframe. cbn [store w1 with_store].
    unfold live_value. rewrite lookup_insert_eq.
    rewrite (proj2 (Z.ltb_lt _ _)) by done.
    by rewrite bool_decide_eq_false_2 by done.
  - split; [by right|].
    intros t Ht. rewrite get_password_from_redis_run.
    cbn [redis_encode fst]. rewrite Hframe. cbn [store w1 with_store].
    unfold live_value. rewrite lookup_insert_eq.
    rewrite (proj2 (Z.ltb_lt _ _)) by done.
    by rewrite bool_decide_eq_false_2 by done.
Qed.

End RegisterProperties.

(** ** The user service and the whole saga *)

Ltac urun :=
  repeat (cbv beta delta
            [mbind mret UM_bind UM_ret uraise utry_except
             user_session_rollback user_session_commit user_session_add_flush
             user_for_async_session publish_user_created publish_user_event
             initialize exchange_publish]
          || cbn [fst snd negb users users_new outbox is_initialized
                  broker_up]).

Section SagaProperties.
Variable get_password_hash : string → string.
Variable uuid_parse : string → option string.
Variable email_validate : string → option string.
Variable integrity_message : IntegrityConstraint → AuthUser.t → string.
Variable user_integrity_message : IntegrityConstraint → User.t → string.

Local Abbreviation user_handler :=
  (handle_user_creation_request email_validate user_integrity_message).
Local Abbreviation auth_handler :=
  (handle_user_creation_response get_password_hash uuid_parse email_validate
     integrity_message).

(** The message that reports the creation of [new_user]. *)
Local Abbreviation completion new_user request :=
  (mkPublished "user.created" "user.created"
     {[ "id" := Atom (PStr (User.id new_user));
        "username" := Atom (PStr (User.username new_user));
        "email" := Atom (PStr (User.email new_user));
        "original_request" := Obj request ]}).

Lemma _serialize_response (new_user : User.t) (request : Dict) :
  _serialize_user_data
    {[ "id" := RawUUID (User.id new_user);
       "username" := Plain (Atom (PStr (User.username new_user)));
       "email" := Plain (Atom (PStr (User.email new_user)));
       "original_request" := Plain (Obj request) ]}
  = {[ "id" := Atom (PStr (User.id new_user));
       "username" := Atom (PStr (User.username new_user));
       "email" := Atom (PStr (User.email new_user));
       "original_request" := Obj request ]}.
Proof.
  unfold _serialize_user_data.
  by rewrite !fmap_insert, map_fmap_singleton.
Qed.

(** The ways a run of the user service's handler can end. *)
Lemma user_handler_cases (request : Dict) (uuid4 : string) (w : UserWorld) :
  ∃ w',
    user_handler request uuid4 w = (Ok (), w')
    ∧ ((users w' = users w ∧ outbox w' = outbox w)
       ∨ ∃ user_create,
           UserCreate_init email_validate (py_get request "username")
             (py_get request "email") = Ok user_create
           ∧ let new_user :=
               User.mk uuid4 (UserCreate.username user_create)
                 (UserCreate.email user_create) in
             user_violated (users w) new_user = None
             ∧ users w' = users w ++ [new_user]
             ∧ ((broker_up w = true
                 ∧ outbox w' = outbox w ++ [completion new_user request])
                ∨ (broker_up w = false ∧ is_initialized w = true
                   ∧ outbox w' = outbox w))).
Proof.
  unfold handle_user_creation_request, user_crud_create. urun.
  destruct (UserCreate_init _ _ _) as [user_create|e]; urun;
    [|by eauto 10].
  rewrite (app_nil_r (users w)).
  destruct (user_violated _ _) as [c|] eqn:Hv; urun.
  - repeat destruct (py_in _ _); urun; by eauto 10.
  - rewrite _serialize_response.
    destruct (is_initialized w) eqn:Hinit, (broker_up w) eqn:Hup; urun;
      rewrite ?Hup; urun; eexists; (split; [done|]); cbn;
      first [ by left
            | right; exists user_create; cbn; rewrite ?app_nil_r; by eauto 10 ].
Qed.



End SagaProperties.

(** * The further properties on concrete runs *)

Lemma one_json_round_trip : json_round_trip_on one_json_dumps one_json_loads
  one_record.
Proof. split; by vm_compute. Qed.

(** Hypotheses on concrete data are settled by evaluation, the contracts of
    the collaborators by the lemmas on the symbolic ones. *)
Ltac concrete :=
  lazymatch goal with
  | |- jwt_round_trip _ _ _ _ _ => apply sym_round_trip
  | |- json_round_trip_on _ _ _ => exact one_json_round_trip
  | |- is_Some _ => eexists; vm_compute; reflexivity
  | |- _ => vm_compute; done
  end.

(** Discharges the hypotheses of [H] one after the other. *)
Ltac settle H :=
  cbv zeta in H;
  repeat
    match type of H with
    | ?A → _ =>
      let h := fresh in
      assert (h : A) by concrete; specialize (H h); clear h
    end.

(** What [p] is, from a concrete decoding. *)
Ltac decoded Hp payload :=
  match type of Hp with
  | ?lhs = Some ?p =>
    let E := fresh "E" in
    assert (E : lhs = Some payload) by (vm_compute; reflexivity);
    rewrite E in Hp; injection Hp as <-; clear E
  end.

(** Issued at second 100 for seven days, verified at second 200. *)
Lemma issued_refresh_token_verifies_witness :
  ∃ w1 w2,
    create_refresh_token one_json_dumps (demo_settings true) "id-1" "r-9"
      (100 * second) empty_world = (Ok "r-9", w1)
    ∧ verify_refresh_token one_json_loads "r-9" (200 * second) w1
      = (Ok (PStr "id-1"), w2)
    ∧ store w2 = store w1.
Proof.
  apply (issued_refresh_token_verifies one_json_dumps one_json_loads
           (demo_settings true) "id-1" "r-9" (100 * second) (200 * second)
           empty_world).
  - concrete.
  - exact one_json_round_trip.
  - concrete.
  - concrete.
Defined.

(** The record says second 604900; the store still has it at 604900.2. *)
Lemma expired_refresh_record_is_deleted_witness :
  ∃ w',
    verify_refresh_token one_json_loads "r-1" 604900200000 stale_world
    = (Raise JWTError, w')
    ∧ store w' = ∅.
Proof.
  destruct (expired_refresh_record_is_deleted one_json_loads "r-1"
              604900200000 stale_world "one-record" one_record 604900)
    as (w' & Hrun & Hstore & _); try concrete.
  exists w'. split; [exact Hrun|]. rewrite Hstore. concrete.
Defined.

(** Issued at second 100.5: the record says 604900, the entry lasts until
    604900.5, and at 604900.2 the token is refused as expired. *)
Lemma issued_refresh_token_expires_at_written_second_witness :
  ∃ w1 w2,
    create_refresh_token one_json_dumps (demo_settings true) "id-1" "r-9"
      100500000 empty_world = (Ok "r-9", w1)
    ∧ verify_refresh_token one_json_loads "r-9" 604900200000 w1
      = (Raise JWTError, w2)
    ∧ store w2 !! refresh_key "r-9" = None.
Proof.
  apply (issued_refresh_token_expires_at_written_second one_json_dumps
           one_json_loads (demo_settings true) "id-1" "r-9" 100500000
           604900200000 empty_world).
  - concrete.
  - exact one_json_round_trip.
  - concrete.
  - concrete.
Defined.

Lemma revoke_refresh_token_is_local_witness :
  ∃ w',
    revoke_refresh_token "r-2" (100 * second) session_world = (Ok false, w')
    ∧ (verify_refresh_token one_json_loads "r-1" (200 * second) w').1
      = Ok (PStr "id-1").
Proof.
  destruct (revoke_refresh_token_is_local one_json_loads "r-2" "r-1"
              (100 * second) session_world)
    as (w' & Hrun & _ & Hother); [done|].
  exists w'. split; [exact Hrun|]. by rewrite Hother.
Defined.

Lemma blacklisted_token_is_rejected_witness :
  let w' :=
    (blacklist_token sym_decode (demo_settings true) demo_token
       (100 * second) empty_world).2 in
  (verify_token sym_decode (demo_settings true) demo_token (105 * second)
     w').1
  = Ok None.
Proof.
  intros w'.
  destruct (blacklisted_token_is_rejected sym_decode (demo_settings true)
              demo_token (100 * second) empty_world w')
    as (payload & exp & Hdec & Hexp & Hrej); [done|concrete|].
  decoded Hdec demo_payload.
  decoded Hexp 110.
  apply Hrej; [concrete|].
  intros p Hp. by decoded Hp demo_payload.
Defined.

(** Blacklisting [jti-1] leaves the refresh record of [r-1] in place. *)
Lemma blacklist_token_writes_only_its_own_entry_witness :
  let run :=
    blacklist_token sym_decode (demo_settings true) demo_token
      (100 * second) session_world in
  run.1 = Ok true
  ∧ store run.2 !! refresh_key "r-1" = store session_world !! refresh_key "r-1".
Proof.
  intros run. split; [concrete|].
  apply (blacklist_token_writes_only_its_own_entry sym_decode
           (demo_settings true) demo_token (100 * second) session_world
           run.2 run.1).
  concrete.
Defined.

(** The token expires at second 110 and is handed in at 109.5. *)
Lemma token_in_its_last_second_cannot_be_blacklisted_witness :
  blacklist_token sym_decode (demo_settings true) demo_token 109500000
    empty_world
  = (Ok false, with_call (SETEX "blacklist_token:jti-1" 0 "1") empty_world).
Proof.
  apply (token_in_its_last_second_cannot_be_blacklisted sym_decode
           (demo_settings true) demo_token 109500000 empty_world demo_payload
           110); concrete.
Defined.

Lemma revoking_one_token_keeps_the_other_witness :
  let data : Dict := {[ "sub" := PStr "u1" ]} in
  let first :=
    create_access_token sym_encode (demo_settings true) data None "jti-a"
      (100 * second) in
  let other :=
    create_access_token sym_encode (demo_settings true) data None "jti-b"
      (100 * second) in
  let run :=
    blacklist_token sym_decode (demo_settings true) first (101 * second)
      empty_world in
  run.1 = Ok true
  ∧ (verify_token sym_decode (demo_settings true) first (102 * second)
       run.2).1 = Ok None
  ∧ (verify_token sym_decode (demo_settings true) other (102 * second)
       run.2).1
    = Ok (Some (<["exp" := PInt 1900]> (<["jti" := PStr "jti-b"]> data))).
Proof.
  intros data first other run.
  split; [concrete|]. split; [concrete|].
  apply (revoking_one_token_keeps_the_other sym_encode sym_decode
           (demo_settings true) data data None None "jti-a" "jti-b"
           (100 * second) (100 * second) (101 * second) (102 * second)
           empty_world run.2 run.1); concrete.
Defined.

Lemma logout_revokes_both_tokens_witness :
  ∃ w',
    logout sym_decode (demo_settings true) demo_logout (100 * second)
      session_world
    = (Ok "ログアウトしました", w')
    ∧ calls w'
      = [DEL "refresh_token:r-1"; SETEX "blacklist_token:jti-1" 10 "1"]
    ∧ (verify_refresh_token one_json_loads "r-1" (101 * second) w').1
      = Ok PNone
    ∧ (verify_token sym_decode (demo_settings true) demo_token
         (101 * second) w').1 = Ok None.
Proof.
  pose proof (logout_revokes_both_tokens sym_decode one_json_loads
                (demo_settings true) demo_logout (100 * second) session_world
                demo_payload 110) as H.
  settle H. destruct H as (w' & Hrun & Hcalls & Hrefresh & Haccess).
  exists w'. split; [exact Hrun|].
  split; [rewrite Hcalls; by vm_compute|].
  split; [apply Hrefresh|]. apply Haccess; [concrete|].
  intros p Hp. by decoded Hp demo_payload.
Defined.

Lemma repeated_logout_fails_witness :
  let first :=
    logout sym_decode (demo_settings true) demo_logout (100 * second)
      session_world in
  first.1 = Ok "ログアウトしました"
  ∧ ∃ w'',
      logout sym_decode (demo_settings true) demo_logout (101 * second)
        first.2
      = (Raise (HTTPException 400), w'')
      ∧ store w'' = store first.2.
Proof.
  intros first. split; [concrete|].
  apply (repeated_logout_fails sym_decode (demo_settings true) demo_logout
           (100 * second) (101 * second) session_world first.2
           "ログアウトしました").
  concrete.
Defined.

(** Scenario of the escrow: put ["p@ss"] for 300 seconds at second 100. *)
Lemma escrow_round_trip_witness :
  ∃ w1 w2 w3 w4 w5,
    save_password_to_redis "bob" "p@ss" 300 (100 * second) empty_world
    = (Ok "temp_password:bob:100", w1)
    ∧ get_password_from_redis (PStr "temp_password:bob:100") (200 * second) w1
      = (Ok (Some "p@ss"), w2)
    ∧ delete_password_from_redis (PStr "temp_password:bob:100")
        (200 * second) w2 = (Ok true, w3)
    ∧ get_password_from_redis (PStr "temp_password:bob:100") (200 * second) w3
      = (Ok None, w4)
    ∧ delete_password_from_redis (PStr "temp_password:bob:100")
        (200 * second) w4 = (Ok false, w5).
Proof.
  destruct (escrow_round_trip "bob" "p@ss" 300 (100 * second) (200 * second)
              empty_world)
    as (key & w1 & w2 & w3 & w4 & w5 & H1 & -> & H2 & H3 & H4 & H5);
    try concrete.
  exists w1, w2, w3, w4, w5. repeat split; assumption.
Defined.

Lemma escrow_lapses_witness :
  (∃ key w1,
     save_password_to_redis "bob" "p@ss" 300 (100 * second) empty_world
     = (Ok key, w1)
     ∧ (get_password_from_redis (PStr key) (400 * second) w1).1 = Ok None)
  ∧ (∃ w1,
       save_password_to_redis "bob" "p@ss" 0 (100 * second) empty_world
       = (Raise ResponseError, w1)
       ∧ store w1 = ∅).
Proof.
  split.
  - destruct (proj1 (escrow_lapses "bob" "p@ss" 300 (100 * second)
                       empty_world))
      as (key & w1 & Hrun & Hgone); [concrete|].
    exists key, w1. split; [exact Hrun|]. apply Hgone. concrete.
  - destruct (proj2 (escrow_lapses "bob" "p@ss" 0 (100 * second)
                       empty_world))
      as (w1 & Hrun & Hstore); [concrete|].
    exists w1. by split.
Defined.

(** Two registrations of [bob] at seconds 100.1 and 100.9. *)
Lemma escrow_key_collides_within_a_second_witness :
  ∃ key w1 w2,
    save_password_to_redis "bob" "first" 300 100100000 empty_world
    = (Ok key, w1)
    ∧ save_password_to_redis "bob" "second" 300 100900000 w1 = (Ok key, w2)
    ∧ (get_password_from_redis (PStr key) (200 * second) w2).1
      = Ok (Some "second").
Proof.
  apply (escrow_key_collides_within_a_second "bob" "first" "second" 300 300
           100100000 100900000 (200 * second) empty_world); concrete.
Defined.


Lemma replayed_completion_is_harmless_witness :
  let first :=
    handle_user_creation_response sym_hash sym_uuid_parse sym_email_validate
      sym_integrity_message
      bob_completed "id-1" (200 * second) (escrow_world []) in
  auth_users first.2 = [bob_row]
  ∧ ∃ w'',
      handle_user_creation_response sym_hash sym_uuid_parse sym_email_validate
        sym_integrity_message
        bob_completed "id-2" (201 * second) first.2
      = (Ok (), w'')
      ∧ auth_users w'' = [bob_row].
Proof.
  intros first. split; [concrete|].
  destruct (replayed_completion_is_harmless sym_hash sym_uuid_parse
              sym_email_validate
              sym_integrity_message bob_completed "id-1" "id-2" (200 * second)
              (201 * second) (escrow_world []) first.2)
    as (w'' & Hrun & Hrows & _); try concrete.
  exists w''. split; [exact Hrun|]. rewrite Hrows. concrete.
Defined.

Lemma handler_keeps_rows_unique_witness :
  unique_rows
    (auth_users
       (handle_user_creation_response sym_hash sym_uuid_parse
          sym_email_validate
          sym_integrity_message bob_completed "id-2" (200 * second)
          (escrow_world [alice_row])).2).
Proof.
  apply (handler_keeps_rows_unique sym_hash sym_uuid_parse sym_email_validate
    sym_integrity_message
           bob_completed "id-2" (200 * second) (escrow_world [alice_row])).
  - repeat split; cbn; apply NoDup_singleton.
  - concrete.
Defined.

Lemma login_failure_is_uniform_witness :
  login sym_encode one_json_dumps (demo_settings true) sym_verify_password
    "mallory" "secret" "jti-1" "r-9" (100 * second) alice_world
  = (Raise (HTTPException 401), alice_world)
  ∧ login sym_encode one_json_dumps (demo_settings true) sym_verify_password
      "alice" "wrong" "jti-1" "r-9" (100 * second) alice_world
    = (Raise (HTTPException 401), alice_world).
Proof.
  split.
  - apply login_failure_is_uniform. left. concrete.
  - apply login_failure_is_uniform. right. exists alice_row. concrete.
Defined.

Lemma login_issues_tokens_that_verify_witness :
  ∃ access w',
    login sym_encode one_json_dumps (demo_settings true) sym_verify_password
      "alice" "secret" "jti-1" "r-9" (100 * second) alice_world
    = (Ok (access, "r-9"), w')
    ∧ (verify_token sym_decode (demo_settings true) access (200 * second)
         w').1
      = Ok (Some (<["exp" := PInt 1900]>
                    (<["jti" := PStr "jti-1"]> (access_claims alice_row))))
    ∧ (verify_refresh_token one_json_loads "r-9" (200 * second) w').1
      = Ok (PStr "id-1").
Proof.
  pose proof (login_issues_tokens_that_verify sym_encode sym_decode
                one_json_dumps one_json_loads (demo_settings true)
                sym_verify_password "alice" "secret" "jti-1" "r-9"
                (100 * second) (200 * second) alice_world alice_row) as H.
  settle H. destruct H as (w' & Hrun & Haccess & Hrefresh).
  eexists _, w'. split; [exact Hrun|].
  split; [|exact Hrefresh]. etrans; [exact Haccess|by vm_compute].
Defined.

Lemma refresh_with_unknown_token_is_unauthorized_witness :
  ∃ w',
    refresh_token_endpoint sym_encode sym_decode one_json_dumps one_json_loads
      (demo_settings true) demo_refresh "jti-2" "r-9" (100 * second)
      alice_world
    = (Raise (HTTPException 401), w')
    ∧ store w' = ∅.
Proof.
  destruct (refresh_with_unknown_token_is_unauthorized sym_encode sym_decode
              one_json_dumps one_json_loads (demo_settings true) demo_refresh
              "jti-2" "r-9" (100 * second) alice_world)
    as (w' & Hrun & Hstore & _); [concrete|].
  exists w'. by split.
Defined.

(** The access token handed in was signed with another key. *)
Lemma failed_refresh_loses_the_refresh_token_witness :
  let forged : Dict * string := sym_encode demo_payload "key-2" "RS256" in
  ∃ w',
    refresh_token_endpoint sym_encode sym_decode one_json_dumps one_json_loads
      (demo_settings true) (@RefreshTokenRequest.mk (Dict * string) "r-1" forged) "jti-2"
      "r-9" (100 * second) session_world
    = (Raise (HTTPException 400), w')
    ∧ store w' = ∅.
Proof.
  intros forged.
  destruct (failed_refresh_loses_the_refresh_token sym_encode sym_decode
              one_json_dumps one_json_loads (demo_settings true)
              (@RefreshTokenRequest.mk (Dict * string) "r-1" forged) "jti-2" "r-9"
              (100 * second) session_world "one-record" one_record 604900
              alice_row)
    as (w' & Hrun & Hstore & _); try concrete.
  exists w'. split; [exact Hrun|]. rewrite Hstore. concrete.
Defined.

Lemma refresh_rotates_both_tokens_witness :
  ∃ access w',
    refresh_token_endpoint sym_encode sym_decode one_json_dumps one_json_loads
      (demo_settings true) demo_refresh "jti-2" "r-9" (100 * second)
      session_world
    = (Ok (access, "r-9"), w')
    ∧ calls w'
      = [GET "refresh_token:r-1"; DEL "refresh_token:r-1";
         SETEX "blacklist_token:jti-1" 10 "1";
         SETEX "refresh_token:r-9" 604800 "one-record"]
    ∧ (verify_refresh_token one_json_loads "r-1" (101 * second) w').1
      = Ok PNone.
Proof.
  pose proof (refresh_rotates_both_tokens sym_encode sym_decode
                one_json_dumps one_json_loads (demo_settings true)
                demo_refresh "jti-2" "r-9" (100 * second) session_world
                "one-record" one_record 604900 alice_row demo_payload 110)
    as H.
  settle H. destruct H as (w' & Hrun & Hcalls & _ & Hold).
  eexists _, w'. split; [exact Hrun|].
  split; [rewrite Hcalls; by vm_compute|apply Hold].
Defined.

(** A token of a user whose row is gone. *)
Lemma get_current_user_outcomes_witness :
  let payload : Dict :=
    {[ "user_id" := PStr "1b4e28ba-2fa1-11d2-883f-0016d3cca427";
       "exp" := PInt 110 ]} in
  let tok := sym_encode payload "key-1" "RS256" in
  (get_current_user sym_decode (demo_settings true) tok (100 * second)
     alice_world).1 = Returns alice_row
  ∧ (get_current_user sym_decode (demo_settings true) tok (100 * second)
       empty_world).1 = RaisesCrud UserNotFoundError.
Proof.
  intros payload tok. split.
  - rewrite (proj2 (proj2 (get_current_user_outcomes sym_decode
                             (demo_settings true) tok (100 * second)
                             alice_world))
               payload "1b4e28ba-2fa1-11d2-883f-0016d3cca427");
      concrete.
  - rewrite (proj2 (proj2 (get_current_user_outcomes sym_decode
                             (demo_settings true) tok (100 * second)
                             empty_world))
               payload "1b4e28ba-2fa1-11d2-883f-0016d3cca427");
      concrete.
Defined.

Lemma register_leaves_password_in_escrow_witness :
  (∃ w',
     register_auth_user publish_down bob_signup (100 * second) empty_world
     = (Raise (HTTPException 500), w')
     ∧ (get_password_from_redis (PStr "temp_password:bob:100")
          (200 * second) w').1 = Ok (Some "p@ss"))
  ∧ (register_auth_user publish_ok bob_signup (100 * second) empty_world).1
    = Ok ("bob", "bob@example.com").
Proof.
  split; [|concrete].
  destruct (register_leaves_password_in_escrow publish_down bob_signup
              (100 * second) empty_world)
    as (r & w' & Hrun & _ & Hkept); [done|concrete|].
  assert (Hr : (register_auth_user publish_down bob_signup (100 * second)
                  empty_world).1 = Raise (HTTPException 500))
    by (vm_compute; reflexivity).
  rewrite Hrun in Hr. cbn [fst] in Hr. subst r.
  exists w'. split; [exact Hrun|]. apply Hkept. concrete.
Defined.

(** The broker went away after the client had connected: [bob]'s row is
    committed and no completion leaves the user service. *)
Example completion_is_lost_when_the_broker_is_cut_off :
  handle_user_creation_request sym_email_validate sym_user_integrity_message
    bob_request "0f8fad5b-d9cb-469f-a165-70867728950e" cut_off_user_world
  = (Ok (),
     mkUserWorld
       [User.mk "0f8fad5b-d9cb-469f-a165-70867728950e" "bob"
          "bob@example.com"] [] [] true false).
Proof. by vm_compute. Qed.

